(** * Chapter03/notebook.ipynb: the [generate] routine

    A shallow embedding of the notebook's single function [generate]
    (Melody RNN orchestration) and proofs about the timing window it
    computes, its two [raise] statements and the order of its calls to
    the external collaborators (magenta, visual_midi, [time], [os]).

    The arithmetic of [generate] is Python [float] arithmetic mixed with
    [int]s.  The embedding is written once, over an interface [PyFloat]
    of the operations the code uses, and instantiated twice:
    - [Exact]: rationals, no rounding ("exact arithmetic");
    - [Binary64]: IEEE-754 double precision as CPython computes it, on
      the Standard Library's executable specification [spec_float]. *)

From Stdlib Require Import ZArith QArith Qround Lqa Lia.
From Stdlib Require Import String Ascii List Bool DecimalString.
From Stdlib Require Import SpecFloat.
Import ListNotations.

Set Implicit Arguments.

(** ** Exceptions and the error monad *)

(** The exceptions the body of [generate] can raise: the two explicit
    [raise Exception(...)], the built-in errors of the arithmetic and
    of the subscript operations, and whatever a collaborator raises. *)
Inductive exn : Type :=
| Exception (msg : string)
| ZeroDivisionError
| OverflowError
| ValueError
| KeyError (key : string)
| IndexError
| CollaboratorError (msg : string).

Definition result (A : Type) : Type := (exn + A)%type.

Definition ret {A} (a : A) : result A := inr a.
Definition raise {A} (e : exn) : result A := inl e.
Definition bind {A B} (c : result A) (k : A -> result B) : result B :=
  match c with
  | inl e => inl e
  | inr a => k a
  end.

Declare Scope py_scope.
Delimit Scope py_scope with py.
Notation "x <- c ;; k" := (bind c (fun x => k))
  (at level 61, c at next level, right associativity) : py_scope.

(** ** The arithmetic interface *)

(** What [generate] needs from [float]: conversion from [int] (implicit
    in every mixed operation, [OverflowError] when the integer is too
    large), [+], [-], [*], true division ([ZeroDivisionError] on a zero
    divisor), the comparison [x > 0], [math.ceil] (which returns an
    [int], and raises on infinities and NaN), the two literals [60.0]
    and [0.00001], and [0.0], the [total_time] of a fresh
    [NoteSequence()]. *)
Class PyFloat (F : Type) : Type := {
  float_of_int : Z -> result F;
  float_add : F -> F -> F;
  float_sub : F -> F -> F;
  float_mul : F -> F -> F;
  float_truediv : F -> F -> result F;
  float_gt0 : F -> bool;
  math_ceil : F -> result Z;
  lit_60 : F;
  lit_0_00001 : F;
  lit_0_0 : F
}.

(** [str] of a Python [int]. *)
Definition str_int (z : Z) : string := NilZero.string_of_int (Z.to_int z).

(** ** The timing window (source lines 142-181) *)

Section Window.

Context {F : Type} `{PyFloat F}.

Local Open Scope py_scope.
Local Open Scope string_scope.

(** [int * float]: the integer is converted first. *)
Definition int_mul_float (n : Z) (x : F) : result F :=
  nf <- float_of_int n ;; ret (float_mul nf x).

(** [float / int]. *)
Definition float_div_int (x : F) (n : Z) : result F :=
  nf <- float_of_int n ;; float_truediv x nf.

(** [seconds_per_step = 60.0 / qpm / getattr(generator, "steps_per_quarter", 4)] *)
Definition seconds_per_step_of (qpm : F) (steps_per_quarter : Z) : result F :=
  q <- float_truediv lit_60 qpm ;;
  float_div_int q steps_per_quarter.

(** The locals of the primer half of the computation (lines 142-161). *)
Record PrimerWindow : Type := {
  seconds_per_step : F;
  primer_sequence_length_steps : Z;
  primer_sequence_length_time : F;
  primer_end_adjust : F;
  primer_start_time : Z;
  primer_end_time : F
}.

(** [primer_end_adjust = (0.00001 if primer_sequence_length_time > 0 else 0)];
    the [int] [0] of the else branch takes part in float arithmetic
    only, where it is converted. *)
Definition primer_end_adjust_of (primer_sequence_length_time : F) : result F :=
  if float_gt0 primer_sequence_length_time then ret lit_0_00001
  else float_of_int 0.

Definition primer_window (qpm : F) (steps_per_quarter : Z) (total_time : F)
  : result PrimerWindow :=
  sps <- seconds_per_step_of qpm steps_per_quarter ;;
  ratio <- float_truediv total_time sps ;;
  steps <- math_ceil ratio ;;
  time <- int_mul_float steps sps ;;
  adjust <- primer_end_adjust_of time ;;
  let start := 0%Z in
  startf <- float_of_int start ;;
  ret {| seconds_per_step := sps;
         primer_sequence_length_steps := steps;
         primer_sequence_length_time := time;
         primer_end_adjust := adjust;
         primer_start_time := start;
         primer_end_time := float_sub (float_add startf time) adjust |}.

(** The locals of the generation half (lines 166-181). *)
Record GenerationWindow : Type := {
  generation_length_steps : Z;
  generation_length_time : F;
  generation_start_time : F;
  generation_end_time : F
}.

(** The message of the [raise] at lines 168-171. *)
Definition length_message (total_length_steps primer_steps : Z) : string :=
  "Total length in steps too small "
  ++ "(" ++ str_int total_length_steps ++ ")"
  ++ ", needs to be at least one bar bigger than primer "
  ++ "(" ++ str_int primer_steps ++ ")".

Definition generation_window (p : PrimerWindow) (total_length_steps : Z)
  : result GenerationWindow :=
  let steps := (total_length_steps - primer_sequence_length_steps p)%Z in
  if (steps <=? 0)%Z then
    raise (Exception
             (length_message total_length_steps (primer_sequence_length_steps p)))
  else
    time <- int_mul_float steps (seconds_per_step p) ;;
    let start := primer_end_time p in
    ret {| generation_length_steps := steps;
           generation_length_time := time;
           generation_start_time := start;
           generation_end_time :=
             float_add (float_add start time) (primer_end_adjust p) |}.

(** Lines 142-181 as a whole. *)
Definition window (qpm : F) (steps_per_quarter : Z) (total_time : F)
           (total_length_steps : Z) : result (PrimerWindow * GenerationWindow) :=
  p <- primer_window qpm steps_per_quarter total_time ;;
  g <- generation_window p total_length_steps ;;
  ret (p, g).

End Window.

Arguments PrimerWindow F : clear implicits.
Arguments GenerationWindow F : clear implicits.

(** ** Exact arithmetic: rationals *)

Module Exact.

Definition truediv (x y : Q) : result Q :=
  if Qeq_bool y 0 then raise ZeroDivisionError else ret (x / y).

Definition gt0 (x : Q) : bool := negb (Qle_bool x 0).

#[global] Instance Q_PyFloat : PyFloat Q := {|
  float_of_int := fun z => ret (inject_Z z);
  float_add := Qplus;
  float_sub := Qminus;
  float_mul := Qmult;
  float_truediv := truediv;
  float_gt0 := gt0;
  math_ceil := fun x => ret (Qceiling x);
  lit_60 := 60;
  lit_0_00001 := 1 # 100000;
  lit_0_0 := 0
|}.

(** The step duration as the formula gives it. *)
Definition step_duration (qpm : Q) (steps_per_quarter : Z) : Q :=
  60 / qpm / inject_Z steps_per_quarter.

(** The locals of the primer half as the formulas of the source give
    them over the rationals, for a given step duration. *)
Definition primer_locals_at (sps t : Q) : PrimerWindow Q :=
  let steps := Qceiling (t / sps) in
  let time := inject_Z steps * sps in
  let adjust := if gt0 time then 1 # 100000 else 0 in
  {| seconds_per_step := sps;
     primer_sequence_length_steps := steps;
     primer_sequence_length_time := time;
     primer_end_adjust := adjust;
     primer_start_time := 0;
     primer_end_time := 0 + time - adjust |}.

Definition primer_locals (qpm : Q) (spq : Z) (t : Q) : PrimerWindow Q :=
  primer_locals_at (step_duration qpm spq) t.

(** The locals of the generation half, likewise. *)
Definition generation_locals (p : PrimerWindow Q) (total_length_steps : Z)
  : GenerationWindow Q :=
  let steps := (total_length_steps - primer_sequence_length_steps p)%Z in
  {| generation_length_steps := steps;
     generation_length_time := inject_Z steps * seconds_per_step p;
     generation_start_time := primer_end_time p;
     generation_end_time :=
       primer_end_time p + inject_Z steps * seconds_per_step p
       + primer_end_adjust p |}.

End Exact.

(** ** Double precision, as CPython computes *)

Module Binary64.

Definition prec : Z := 53.
Definition emax : Z := 1024.

Definition float : Type := spec_float.

(** [int] to [float]: round to nearest even, [OverflowError] when the
    rounded value is out of range. *)
Definition of_int (z : Z) : result float :=
  match binary_normalize prec emax z 0 false with
  | S754_infinity _ => raise OverflowError
  | x => ret x
  end.

Definition is_zero (x : float) : bool :=
  match x with S754_zero _ => true | _ => false end.

(** [float.__truediv__]: a zero divisor raises, otherwise IEEE
    division. *)
Definition truediv (x y : float) : result float :=
  if is_zero y then raise ZeroDivisionError else ret (SFdiv prec emax x y).

Definition gt0 (x : float) : bool := SFltb (S754_zero false) x.

(** [math.ceil]: the exact integer ceiling of a finite double. *)
Definition ceil (x : float) : result Z :=
  match x with
  | S754_zero _ => ret 0%Z
  | S754_infinity _ => raise OverflowError
  | S754_nan => raise ValueError
  | S754_finite s m e =>
      let n := cond_Zopp s (Zpos m) in
      ret (match e with
           | Zneg k => - ((- n) / 2 ^ Zpos k)
           | _ => n * 2 ^ e
           end)%Z
  end.

(** The rational a double stands for; infinities and NaN stand for
    none. *)
Definition to_Q (x : float) : option Q :=
  match x with
  | S754_zero _ => Some 0
  | S754_finite s m e => Some (inject_Z (cond_Zopp s (Zpos m)) * 2 ^ e)
  | S754_infinity _ | S754_nan => None
  end.

(** [x] is finite and stands for exactly [q]. *)
Definition is_exactly (x : float) (q : Q) : Prop :=
  match to_Q x with
  | Some v => v == q
  | None => False
  end.

(** The double denoted by the decimal literal [m / 10^k]: one
    correctly rounded division of two exactly representable
    integers (as long as [|m| < 2^53] and [k <= 22]). *)
Definition decimal (m : Z) (k : Z) : float :=
  SFdiv prec emax (binary_normalize prec emax m 0 false)
                  (binary_normalize prec emax (10 ^ k) 0 false).

#[global] Instance b64_PyFloat : PyFloat float := {|
  float_of_int := of_int;
  float_add := SFadd prec emax;
  float_sub := SFsub prec emax;
  float_mul := SFmul prec emax;
  float_truediv := truediv;
  float_gt0 := gt0;
  math_ceil := ceil;
  lit_60 := decimal 60 0;
  lit_0_00001 := decimal 1 5;
  lit_0_0 := S754_zero false
|}.

End Binary64.

(** ** Strings: [os.path.join], [str.split], the ["%s_%s_%s.ext"] format *)

Section Strings.

Local Open Scope string_scope.

Definition starts_with_slash (s : string) : bool :=
  match s with
  | String c _ => Ascii.eqb c "/"
  | EmptyString => false
  end.

Fixpoint ends_with_slash (s : string) : bool :=
  match s with
  | EmptyString => false
  | String c EmptyString => Ascii.eqb c "/"
  | String _ rest => ends_with_slash rest
  end.

(** [os.path.join(a, b)] on POSIX. *)
Definition os_path_join (a b : string) : string :=
  if starts_with_slash b then b
  else if (a =? "") || ends_with_slash a then a ++ b
  else a ++ "/" ++ b.

(** [s.split(sep)] for a one-character separator. *)
Fixpoint str_split (sep : ascii) (s : string) : list string :=
  match s with
  | EmptyString => [EmptyString]
  | String c rest =>
      if Ascii.eqb c sep then EmptyString :: str_split sep rest
      else match str_split sep rest with
           | [] => [String c EmptyString]
           | h :: t => String c h :: t
           end
  end.

(** ["%s_%s_%s" % (a, b, c)] followed by the extension. *)
Definition output_filename (generator_name generator_id date_and_time ext : string)
  : string :=
  generator_name ++ "_" ++ generator_id ++ "_" ++ date_and_time ++ ext.

End Strings.

(** ** The orchestrator [generate] (source lines 49-230) *)

Section Generate.

Context {F : Type} `{PyFloat F}.

(** Opaque artefacts of the collaborators. *)
Variable Bundle : Type.
Variable PrettyMIDI : Type.

(** The two fields of a [NoteSequence] that [generate] reads. *)
Record Tempo : Type := { tempo_qpm : F }.

Record NoteSequence : Type := {
  tempos : list Tempo;
  total_time : F
}.

(** [GeneratorOptions]: the [args] map in assignment order and the
    [generate_sections] list. *)
Inductive ArgValue : Type :=
| float_value (x : F)
| int_value (n : Z).

Record GenerateSection : Type := {
  start_time : F;
  end_time : F
}.

Record GeneratorOptions : Type := {
  args : list (string * ArgValue);
  generate_sections : list GenerateSection
}.

(** A generator object: its class as printed by [str(generator.__class__)],
    the optional attribute [steps_per_quarter], and its two methods. *)
Record Generator : Type := {
  generator_class : string;
  steps_per_quarter : option Z;
  initialize : result unit;
  generate_method : NoteSequence -> GeneratorOptions -> result NoteSequence
}.

(** The [sequence_generator] module: [get_generator_map()] is a dict
    from configuration id to constructor. *)
Definition GeneratorMap : Type := list (string * (Bundle -> result Generator)).

Fixpoint dict_getitem (m : GeneratorMap) (key : string)
  : result (Bundle -> result Generator) :=
  match m with
  | [] => raise (KeyError key)
  | (k, v) :: rest => if String.eqb k key then ret v else dict_getitem rest key
  end.

(** Every call that leaves [generate], in the order it is made.  The
    call of the generation service is recorded with its outcome. *)
Inductive event : Type :=
| ev_download_bundle (bundle_name target_dir : string)
| ev_read_bundle_file (path : string)
| ev_get_generator_map
| ev_construct_generator (generator_id : string)
| ev_initialize
| ev_midi_file_to_note_sequence (path : string)
| ev_print (line : string)
| ev_generate (primer : NoteSequence) (options : GeneratorOptions)
              (outcome : result NoteSequence)
| ev_strftime (format : string)
| ev_note_sequence_to_midi_file (sequence : NoteSequence) (path : string)
| ev_note_sequence_to_pretty_midi (sequence : NoteSequence)
| ev_Plotter
| ev_plotter_show (path : string)
| ev_plotter_save (path : string).

Definition is_generate (e : event) : bool :=
  match e with
  | ev_generate _ _ _ => true
  | _ => false
  end.

(** The collaborators: what each external call answers.  The clock
    read by [time.strftime] depends on what has happened so far. *)
Record World : Type := {
  download_bundle : string -> string -> result unit;
  read_bundle_file : string -> result Bundle;
  midi_file_to_note_sequence : string -> result NoteSequence;
  strftime : string -> list event -> string;
  os_path_abspath : string -> string;
  note_sequence_to_midi_file : NoteSequence -> string -> result unit;
  note_sequence_to_pretty_midi : NoteSequence -> result PrettyMIDI;
  plotter_show : PrettyMIDI -> string -> result unit;
  plotter_save : PrettyMIDI -> string -> result unit;
  str_float : F -> string
}.

(** The monad of [generate]: the log of calls made so far is threaded
    through, and survives an exception. *)
Definition IO (A : Type) : Type := list event -> result A * list event.

Definition io_ret {A} (a : A) : IO A := fun log => (ret a, log).

Definition io_bind {A B} (c : IO A) (k : A -> IO B) : IO B :=
  fun log =>
    match c log with
    | (inl e, log') => (inl e, log')
    | (inr a, log') => k a log'
    end.

(** A pure computation that may raise. *)
Definition lift {A} (r : result A) : IO A := fun log => (r, log).

(** An external call: recorded, then answered. *)
Definition call {A} (e : event) (r : result A) : IO A :=
  fun log => (r, log ++ [e]).

Definition print (line : string) : IO unit := call (ev_print line) (ret tt).

Definition time_strftime (W : World) (format : string) : IO string :=
  fun log => (ret (strftime W format log), log ++ [ev_strftime format]).

Declare Scope io_scope.
Delimit Scope io_scope with io.
Notation "x <- c ;; k" := (io_bind c (fun x => k))
  (at level 61, c at next level, right associativity) : io_scope.
Notation "c ;; k" := (io_bind c (fun _ => k))
  (at level 61, right associativity) : io_scope.

Local Open Scope string_scope.

(** Lines 135-138: the tempo of the primer wins over the argument. *)
Definition resolve_qpm (primer_sequence : NoteSequence) (qpm : F) : result F :=
  match tempos primer_sequence with
  | [] => ret qpm
  | first :: _ =>
      if (1 <? Z.of_nat (List.length (tempos primer_sequence)))%Z then
        raise (Exception "No support for multiple tempos")
      else ret (tempo_qpm first)
  end.

(** [if primer_filename:] is false on [None] and on the empty string. *)
Definition truthy (primer_filename : option string) : option string :=
  match primer_filename with
  | Some "" => None
  | other => other
  end.

(** [str(generator.__class__).split(".")[2]] *)
Definition generator_name_of (generator : Generator) : result string :=
  match nth_error (str_split "." (generator_class generator)) 2 with
  | Some name => ret name
  | None => raise IndexError
  end.

(** [getattr(generator, "steps_per_quarter", 4)] *)
Definition getattr_steps_per_quarter (generator : Generator) : Z :=
  match steps_per_quarter generator with
  | Some n => n
  | None => 4%Z
  end.

Variable W : World.

(** Lines 113-131: bundle, generator, primer. *)
Definition acquire (bundle_name : string) (sequence_generator : GeneratorMap)
           (generator_id : string) (primer_filename : option string)
  : IO (Generator * NoteSequence) :=
  (call (ev_download_bundle bundle_name "bundles")
        (download_bundle W bundle_name "bundles") ;;
   bundle <- call (ev_read_bundle_file (os_path_join "bundles" bundle_name))
                  (read_bundle_file W (os_path_join "bundles" bundle_name)) ;;
   generator_map <- call ev_get_generator_map (ret sequence_generator) ;;
   constructor <- lift (dict_getitem generator_map generator_id) ;;
   generator <- call (ev_construct_generator generator_id) (constructor bundle) ;;
   call ev_initialize (initialize generator) ;;
   primer_sequence <-
     match truthy primer_filename with
     | Some name =>
         call (ev_midi_file_to_note_sequence (os_path_join "primers" name))
              (midi_file_to_note_sequence W (os_path_join "primers" name))
     | None => io_ret {| tempos := []; total_time := lit_0_0 |}
     end ;;
   io_ret (generator, primer_sequence))%io.

(** An [int32] field of a protobuf message takes the integers of
    [-2^31, 2^31 - 1]; assigning any other raises [ValueError]. *)
Definition in_int32 (n : Z) : bool :=
  ((-2147483648 <=? n) && (n <=? 2147483647))%Z.

(** [args[key].int_value = n] *)
Definition set_int_value (n : Z) : result ArgValue :=
  if in_int32 n then ret (int_value n) else raise ValueError.

(** Lines 193-201: the request handed to the generation service.  The
    temperature goes into a [double] field, the three integers into
    [int32] fields, in this order. *)
Definition build_options (temperature : F)
           (beam_size branch_factor steps_per_iteration : Z)
           (g : GenerationWindow F) : result GeneratorOptions :=
  (beam <- set_int_value beam_size ;;
   branch <- set_int_value branch_factor ;;
   steps <- set_int_value steps_per_iteration ;;
   ret {| args := [ ("temperature", float_value temperature);
                    ("beam_size", beam);
                    ("branch_factor", branch);
                    ("steps_per_iteration", steps) ];
          generate_sections :=
            [ {| start_time := generation_start_time g;
                 end_time := generation_end_time g |} ] |})%py.

(** Lines 184-189: the two lines printed before the generation. *)
Definition print_windows (p : PrimerWindow F) (g : GenerationWindow F) : IO unit :=
  (print ("Primer time: ["
          ++ str_int (primer_start_time p) ++ ", "
          ++ str_float W (primer_end_time p) ++ "]") ;;
   print ("Generation time: ["
          ++ str_float W (generation_start_time g) ++ ", "
          ++ str_float W (generation_end_time g) ++ "]"))%io.

(** Lines 207-228: the MIDI file, then the plot. *)
Definition persist (generator : Generator) (generator_id : string)
           (show_plot : bool) (sequence : NoteSequence) : IO unit :=
  (date_and_time <- time_strftime W "%Y-%m-%d_%H%M%S" ;;
   generator_name <- lift (generator_name_of generator) ;;
   let midi_filename :=
     output_filename generator_name generator_id date_and_time ".mid" in
   let midi_path := os_path_join "output" midi_filename in
   call (ev_note_sequence_to_midi_file sequence midi_path)
        (note_sequence_to_midi_file W sequence midi_path) ;;
   print ("Generated midi file: " ++ os_path_abspath W midi_path) ;;
   date_and_time <- time_strftime W "%Y-%m-%d_%H%M%S" ;;
   generator_name <- lift (generator_name_of generator) ;;
   let plot_filename :=
     output_filename generator_name generator_id date_and_time ".html" in
   let plot_path := os_path_join "output" plot_filename in
   pretty_midi <- call (ev_note_sequence_to_pretty_midi sequence)
                       (note_sequence_to_pretty_midi W sequence) ;;
   call ev_Plotter (ret tt) ;;
   (if show_plot
    then call (ev_plotter_show plot_path) (plotter_show W pretty_midi plot_path)
    else call (ev_plotter_save plot_path) (plotter_save W pretty_midi plot_path)) ;;
   print ("Generated plot file: " ++ os_path_abspath W plot_path))%io.

(** Lines 142-230, once the generator, the primer and the tempo are
    known. *)
Definition generate_from (generator : Generator) (primer_sequence : NoteSequence)
           (qpm : F) (generator_id : string) (total_length_steps : Z)
           (temperature : F) (beam_size branch_factor steps_per_iteration : Z)
           (show_plot : bool) : IO NoteSequence :=
  (pg <- lift (window qpm (getattr_steps_per_quarter generator)
                      (total_time primer_sequence) total_length_steps) ;;
   print_windows (fst pg) (snd pg) ;;
   generator_options <-
     lift (build_options temperature beam_size branch_factor
                         steps_per_iteration (snd pg)) ;;
   sequence <-
     call (ev_generate primer_sequence generator_options
                       (generate_method generator primer_sequence generator_options))
          (generate_method generator primer_sequence generator_options) ;;
   persist generator generator_id show_plot sequence ;;
   io_ret sequence)%io.

(** The whole function. *)
Definition generate (bundle_name : string) (sequence_generator : GeneratorMap)
           (generator_id : string) (primer_filename : option string)
           (qpm : F) (total_length_steps : Z) (temperature : F)
           (beam_size branch_factor steps_per_iteration : Z)
           (show_plot : bool) : IO NoteSequence :=
  (gp <- acquire bundle_name sequence_generator generator_id primer_filename ;;
   qpm <- lift (resolve_qpm (snd gp) qpm) ;;
   generate_from (fst gp) (snd gp) qpm generator_id total_length_steps
                 temperature beam_size branch_factor steps_per_iteration
                 show_plot)%io.

End Generate.

(** ** A concrete run *)

(** One collaborator set in double precision: a primer of 1.5 s with
    the single tempo 120.0, a Melody RNN generator with four steps per
    quarter whose [generate] answers a sequence ending where the
    requested section ends, and writers that succeed. *)
Module Demo.

Import Binary64.

Local Open Scope string_scope.

Definition primer : NoteSequence (F:=float) :=
  {| tempos := [ {| tempo_qpm := decimal 120 0 |} ];
     total_time := decimal 15 1 |}.

(** A primer that declares two tempos, and the primer of a call
    without [primer_filename]. *)
Definition two_tempos : NoteSequence (F:=float) :=
  {| tempos := [ {| tempo_qpm := decimal 120 0 |};
                 {| tempo_qpm := decimal 90 0 |} ];
     total_time := decimal 15 1 |}.

Definition no_primer : NoteSequence (F:=float) :=
  {| tempos := []; total_time := lit_0_0 |}.

(** What [melody_rnn] below answers when asked to fill up to 4.0 s. *)
Definition generated : NoteSequence (F:=float) :=
  {| tempos := [ {| tempo_qpm := decimal 120 0 |} ];
     total_time := decimal 4 0 |}.

Definition melody_rnn : Generator (F:=float) :=
  {| generator_class :=
       "<class 'magenta.models.melody_rnn.melody_rnn_sequence_generator.MelodyRnnSequenceGenerator'>";
     steps_per_quarter := Some 4%Z;
     initialize := ret tt;
     generate_method := fun primer_sequence options =>
       ret {| tempos := tempos primer_sequence;
              total_time :=
                match generate_sections options with
                | section :: _ => end_time section
                | [] => total_time primer_sequence
                end |} |}.

Definition generator_map : GeneratorMap (F:=float) unit :=
  [ ("basic_rnn", fun _ => ret melody_rnn);
    ("lookback_rnn", fun _ => ret melody_rnn);
    ("attention_rnn", fun _ => ret melody_rnn) ].

Definition world : World (F:=float) unit unit :=
  {| download_bundle := fun _ _ => ret tt;
     read_bundle_file := fun _ => ret tt;
     midi_file_to_note_sequence := fun _ => ret primer;
     strftime := fun _ _ => "2019-09-11_124619";
     os_path_abspath := fun path => "/home/alex/Chapter03/" ++ path;
     note_sequence_to_midi_file := fun _ _ => ret tt;
     note_sequence_to_pretty_midi := fun _ => ret tt;
     plotter_show := fun _ _ => ret tt;
     plotter_save := fun _ _ => ret tt;
     str_float := fun _ => "<float>" |}.

(** The call of the notebook's second cell, and the same call with a
    total length equal to the primer's twelve steps. *)
Definition run (total_length_steps : Z) : IO (F:=float) (NoteSequence (F:=float)) :=
  generate world "basic_rnn.mag" generator_map "basic_rnn"
           (Some "Fur_Elisa_Beethoveen_Monophonic.mid")
           (decimal 120 0) total_length_steps (decimal 9 1) 1 1 1 true.

End Demo.

(** ** Vocabulary for the statements about runs *)

(** [sep.join(pieces)], the inverse of [str_split]. *)
Fixpoint str_join (sep : ascii) (pieces : list string) : string :=
  match pieces with
  | [] => EmptyString
  | piece :: rest =>
      match rest with
      | [] => piece
      | _ :: _ => piece ++ String sep (str_join sep rest)
      end
  end.

(** [s.count(c)] for a character. *)
Fixpoint str_count (c : ascii) (s : string) : nat :=
  match s with
  | EmptyString => 0
  | String a rest => (if Ascii.eqb a c then 1 else 0) + str_count c rest
  end.

Section RunVocabulary.

Context {F : Type} `{PyFloat F}.
Variables Bundle PrettyMIDI : Type.
Variable W : World (F:=F) Bundle PrettyMIDI.

Local Open Scope string_scope.

(** The call that loads the primer, when there is one. *)
Definition primer_load_events (primer_filename : option string)
  : list (event (F:=F)) :=
  match truthy primer_filename with
  | Some name => [ev_midi_file_to_note_sequence (os_path_join "primers" name)]
  | None => []
  end.

(** The calls of lines 113-131 when none of them fails. *)
Definition acquisition_events (bundle_name generator_id : string)
           (primer_filename : option string) : list (event (F:=F)) :=
  [ ev_download_bundle bundle_name "bundles";
    ev_read_bundle_file (os_path_join "bundles" bundle_name);
    ev_get_generator_map;
    ev_construct_generator generator_id;
    ev_initialize ]
  ++ primer_load_events primer_filename.

(** The two lines of lines 184-189. *)
Definition window_lines (p : PrimerWindow F) (g : GenerationWindow F)
  : list (event (F:=F)) :=
  [ ev_print ("Primer time: ["
              ++ str_int (primer_start_time p) ++ ", "
              ++ str_float W (primer_end_time p) ++ "]");
    ev_print ("Generation time: ["
              ++ str_float W (generation_start_time g) ++ ", "
              ++ str_float W (generation_end_time g) ++ "]") ].

Definition midi_path (generator_name generator_id date_and_time : string) : string :=
  os_path_join "output"
               (output_filename generator_name generator_id date_and_time ".mid").

Definition plot_path (generator_name generator_id date_and_time : string) : string :=
  os_path_join "output"
               (output_filename generator_name generator_id date_and_time ".html").

(** The calls of lines 207-214 when none of them fails, for the
    timestamp read. *)
Definition midi_events (generator_name generator_id : string)
           (sequence : NoteSequence) (first_time : string)
  : list (event (F:=F)) :=
  [ ev_strftime "%Y-%m-%d_%H%M%S";
    ev_note_sequence_to_midi_file
      sequence (midi_path generator_name generator_id first_time);
    ev_print ("Generated midi file: "
              ++ os_path_abspath W
                   (midi_path generator_name generator_id first_time)) ].

(** The calls of lines 207-228 when none of them fails, for the two
    timestamps read. *)
Definition persistence_events (generator_name generator_id : string)
           (show_plot : bool) (sequence : NoteSequence)
           (first_time second_time : string) : list (event (F:=F)) :=
  [ ev_strftime "%Y-%m-%d_%H%M%S";
    ev_note_sequence_to_midi_file
      sequence (midi_path generator_name generator_id first_time);
    ev_print ("Generated midi file: "
              ++ os_path_abspath W
                   (midi_path generator_name generator_id first_time));
    ev_strftime "%Y-%m-%d_%H%M%S";
    ev_note_sequence_to_pretty_midi sequence;
    ev_Plotter;
    (if show_plot
     then ev_plotter_show (plot_path generator_name generator_id second_time)
     else ev_plotter_save (plot_path generator_name generator_id second_time));
    ev_print ("Generated plot file: "
              ++ os_path_abspath W
                   (plot_path generator_name generator_id second_time)) ].

(** A sequence handed to one of the two sinks. *)
Definition written_sequence (e : event (F:=F)) : option NoteSequence :=
  match e with
  | ev_note_sequence_to_midi_file sequence _ => Some sequence
  | ev_note_sequence_to_pretty_midi sequence => Some sequence
  | _ => None
  end.

(** A call that neither reaches the generation service nor hands a
    sequence to a sink. *)
Definition is_quiet (e : event (F:=F)) : bool :=
  match e with
  | ev_generate _ _ _ | ev_note_sequence_to_midi_file _ _
  | ev_note_sequence_to_pretty_midi _ => false
  | _ => true
  end.

End RunVocabulary.

(** ** Collaborators that fail *)

(** Variations of the concrete run: a generator whose [generate]
    raises, a generator defined in [__main__] (its printed class has a
    single dot), and a world whose MIDI writer raises. *)
Module Faults.

Import Binary64.

Local Open Scope string_scope.

Definition broken_rnn : Generator (F:=float) :=
  {| generator_class := generator_class Demo.melody_rnn;
     steps_per_quarter := Some 4%Z;
     initialize := ret tt;
     generate_method := fun _ _ => raise (CollaboratorError "out of memory") |}.

Definition local_rnn : Generator (F:=float) :=
  {| generator_class := "<class '__main__.MelodyRnn'>";
     steps_per_quarter := None;
     initialize := ret tt;
     generate_method := generate_method Demo.melody_rnn |}.

Definition generator_map : GeneratorMap (F:=float) unit :=
  [ ("broken_rnn", fun _ => ret broken_rnn);
    ("local_rnn", fun _ => ret local_rnn) ].

Definition read_only_world : World (F:=float) unit unit :=
  {| download_bundle := download_bundle Demo.world;
     read_bundle_file := read_bundle_file Demo.world;
     midi_file_to_note_sequence := midi_file_to_note_sequence Demo.world;
     strftime := strftime Demo.world;
     os_path_abspath := os_path_abspath Demo.world;
     note_sequence_to_midi_file :=
       fun _ _ => raise (CollaboratorError "read-only file system");
     note_sequence_to_pretty_midi := note_sequence_to_pretty_midi Demo.world;
     plotter_show := plotter_show Demo.world;
     plotter_save := plotter_save Demo.world;
     str_float := str_float Demo.world |}.

(** The window of the concrete primer for 32 steps in total. *)
Definition primer_window_32 : PrimerWindow float :=
  {| seconds_per_step := decimal 125 3;
     primer_sequence_length_steps := 12;
     primer_sequence_length_time := decimal 15 1;
     primer_end_adjust := decimal 1 5;
     primer_start_time := 0;
     primer_end_time := decimal 149999 5 |}.

Definition generation_window_32 : GenerationWindow float :=
  {| generation_length_steps := 20;
     generation_length_time := decimal 25 1;
     generation_start_time := decimal 149999 5;
     generation_end_time := decimal 4 0 |}.

(** The request of the concrete run for that window. *)
Definition options_32 : GeneratorOptions (F:=float) :=
  {| args := [ ("temperature", float_value (decimal 9 1));
               ("beam_size", int_value 1);
               ("branch_factor", int_value 1);
               ("steps_per_iteration", int_value 1) ];
     generate_sections :=
       [ {| start_time := decimal 149999 5; end_time := decimal 4 0 |} ] |}.

End Faults.

(** ** A clock that moves *)

(** The concrete run again, with a clock that answers the number of
    calls made so far: the two timestamps of a run differ. *)
Module Ticking.

Import Binary64.

Local Open Scope string_scope.

Definition world : World (F:=float) unit unit :=
  {| download_bundle := download_bundle Demo.world;
     read_bundle_file := read_bundle_file Demo.world;
     midi_file_to_note_sequence := midi_file_to_note_sequence Demo.world;
     strftime := fun _ log => str_int (Z.of_nat (List.length log));
     os_path_abspath := os_path_abspath Demo.world;
     note_sequence_to_midi_file := note_sequence_to_midi_file Demo.world;
     note_sequence_to_pretty_midi := note_sequence_to_pretty_midi Demo.world;
     plotter_show := plotter_show Demo.world;
     plotter_save := plotter_save Demo.world;
     str_float := str_float Demo.world |}.

Definition run (total_length_steps : Z) : IO (F:=float) (NoteSequence (F:=float)) :=
  generate world "basic_rnn.mag" Demo.generator_map "basic_rnn"
           (Some "Fur_Elisa_Beethoveen_Monophonic.mid")
           (decimal 120 0) total_length_steps (decimal 9 1) 1 1 1 true.

End Ticking.

(** * Facts *)

(** ** The window in any arithmetic *)

Section WindowFacts.

Context {F : Type} `{PyFloat F}.

(** Reading the locals back: a primer window that was computed was
    computed by the operations of the source, in their order. *)
Lemma primer_window_inv (qpm : F) (spq : Z) (t : F) (p : PrimerWindow F) :
  primer_window qpm spq t = inr p ->
  exists q spqf ratio stepsf zerof,
    float_truediv lit_60 qpm = inr q
    /\ float_of_int spq = inr spqf
    /\ float_truediv q spqf = inr (seconds_per_step p)
    /\ float_truediv t (seconds_per_step p) = inr ratio
    /\ math_ceil ratio = inr (primer_sequence_length_steps p)
    /\ float_of_int (primer_sequence_length_steps p) = inr stepsf
    /\ primer_sequence_length_time p = float_mul stepsf (seconds_per_step p)
    /\ primer_end_adjust_of (primer_sequence_length_time p)
       = inr (primer_end_adjust p)
    /\ primer_start_time p = 0%Z
    /\ float_of_int 0 = inr zerof
    /\ primer_end_time p
       = float_sub (float_add zerof (primer_sequence_length_time p))
                   (primer_end_adjust p).
Proof.
  unfold primer_window, seconds_per_step_of, float_div_int, int_mul_float.
  destruct (float_truediv lit_60 qpm) as [|q] eqn:Eq; [discriminate|]. cbn [bind].
  destruct (float_of_int spq) as [|spqf] eqn:Espq; [discriminate|]. cbn [bind].
  destruct (float_truediv q spqf) as [|sps] eqn:Esps; [discriminate|]. cbn [bind].
  destruct (float_truediv t sps) as [|ratio] eqn:Eratio; [discriminate|]. cbn [bind].
  destruct (math_ceil ratio) as [|steps] eqn:Eceil; [discriminate|]. cbn [bind].
  destruct (float_of_int steps) as [|stepsf] eqn:Esteps; [discriminate|].
  cbn [bind ret].
  destruct (primer_end_adjust_of (float_mul stepsf sps)) as [|adjust] eqn:Eadj;
    [discriminate|]. cbn [bind].
  destruct (float_of_int 0) as [|zerof] eqn:Ezero; [discriminate|]. cbn [bind ret].
  intros Hp. injection Hp as <-. cbn.
  exists q, spqf, ratio, stepsf, zerof. repeat split; assumption.
Qed.

(** The guard of line 167. *)
Lemma generation_window_too_small (p : PrimerWindow F) (total : Z) :
  (total - primer_sequence_length_steps p <= 0)%Z ->
  generation_window p total
  = inl (Exception (length_message total (primer_sequence_length_steps p))).
Proof.
  intros Hle. unfold generation_window.
  destruct (Z.leb_spec (total - primer_sequence_length_steps p) 0); [reflexivity|lia].
Qed.

End WindowFacts.

(** ** The window under exact arithmetic *)

Module ExactFacts.

Import Exact.

Lemma Qeq_bool_pos (x : Q) : 0 < x -> Qeq_bool x 0 = false.
Proof.
  intros Hx. destruct (Qeq_bool x 0) eqn:E; [|reflexivity].
  apply Qeq_bool_iff in E. lra.
Qed.

Lemma inject_Z_pos (n : Z) : (0 < n)%Z -> 0 < inject_Z n.
Proof. intros Hn. change 0 with (inject_Z 0). rewrite <- Zlt_Qlt. exact Hn. Qed.

Lemma step_duration_pos qpm spq :
  0 < qpm -> (0 < spq)%Z -> 0 < step_duration qpm spq.
Proof.
  intros Hq Hs. unfold step_duration.
  pose proof (inject_Z_pos Hs).
  apply Qlt_shift_div_l; [assumption|].
  apply Qlt_shift_div_l; [assumption|]. lra.
Qed.

Lemma gt0_true x : gt0 x = true <-> 0 < x.
Proof.
  unfold gt0. rewrite negb_true_iff. split; intros Hx.
  - destruct (Qlt_le_dec 0 x) as [|Hle]; [assumption|].
    apply Qle_bool_iff in Hle. congruence.
  - destruct (Qle_bool x 0) eqn:E; [|reflexivity]. apply Qle_bool_iff in E. lra.
Qed.

Lemma gt0_false x : gt0 x = false <-> x <= 0.
Proof.
  unfold gt0. rewrite negb_false_iff. apply Qle_bool_iff.
Qed.

Lemma seconds_per_step_of_exact qpm spq :
  0 < qpm -> (0 < spq)%Z ->
  seconds_per_step_of qpm spq = inr (step_duration qpm spq).
Proof.
  intros Hq Hs. unfold seconds_per_step_of, float_div_int. cbn.
  unfold truediv. rewrite (Qeq_bool_pos Hq). cbn.
  rewrite (Qeq_bool_pos (inject_Z_pos Hs)). reflexivity.
Qed.

Lemma primer_window_at qpm spq t sps :
  seconds_per_step_of qpm spq = inr sps -> 0 < sps ->
  primer_window qpm spq t = inr (primer_locals_at sps t).
Proof.
  intros Hsps Hpos. unfold primer_window. rewrite Hsps. cbn.
  unfold truediv. rewrite (Qeq_bool_pos Hpos). cbn.
  unfold primer_end_adjust_of, primer_locals_at. cbn.
  destruct (gt0 _); reflexivity.
Qed.

Lemma primer_window_exact qpm spq t :
  0 < qpm -> (0 < spq)%Z ->
  primer_window qpm spq t = inr (primer_locals qpm spq t).
Proof.
  intros Hq Hs. apply primer_window_at.
  - apply seconds_per_step_of_exact; assumption.
  - apply step_duration_pos; assumption.
Qed.

Lemma generation_window_exact p total :
  (primer_sequence_length_steps p < total)%Z ->
  generation_window p total = inr (generation_locals p total).
Proof.
  intros Hlt. unfold generation_window.
  destruct (Z.leb_spec (total - primer_sequence_length_steps p) 0); [lia|].
  reflexivity.
Qed.

(** The ceiling brackets the quotient. *)
Lemma ceiling_covers (t s : Q) :
  0 < s -> t <= inject_Z (Qceiling (t / s)) * s.
Proof.
  intros Hs. pose proof (Qle_ceiling (t / s)) as Hc.
  apply (Qmult_le_compat_r _ _ s) in Hc; [|lra].
  assert (E : t / s * s == t) by (field; lra).
  rewrite E in Hc. exact Hc.
Qed.

Lemma ceiling_overshoot (t s : Q) :
  0 < s -> inject_Z (Qceiling (t / s)) * s < t + s.
Proof.
  intros Hs. pose proof (Qceiling_lt (t / s)) as Hc.
  apply (Qmult_lt_compat_r _ _ s) in Hc; [|assumption].
  assert (E : t / s * s == t) by (field; lra).
  rewrite E in Hc.
  unfold Z.sub in Hc. rewrite inject_Z_plus in Hc.
  change (inject_Z (-1)) with (-1 # 1) in Hc.
  assert (R : (inject_Z (Qceiling (t / s)) + (-1 # 1)) * s
              == inject_Z (Qceiling (t / s)) * s - s) by ring.
  rewrite R in Hc. lra.
Qed.

Lemma ceiling_pos (t s : Q) : 0 < s -> 0 < t -> (0 < Qceiling (t / s))%Z.
Proof.
  intros Hs Ht. pose proof (ceiling_covers t Hs) as Hc.
  destruct (Z.lt_ge_cases 0 (Qceiling (t / s))) as [|Hle]; [assumption|].
  exfalso.
  assert (Hn : inject_Z (Qceiling (t / s)) <= 0)
    by (change 0 with (inject_Z 0); rewrite <- Zle_Qle; lia).
  assert (inject_Z (Qceiling (t / s)) * s <= 0 * s)
    by (apply Qmult_le_compat_r; lra).
  lra.
Qed.

Lemma ceiling_zero (t s : Q) : 0 < s -> t == 0 -> Qceiling (t / s) = 0%Z.
Proof.
  intros Hs Ht.
  assert (E : t / s == inject_Z 0) by (rewrite Ht; field; lra).
  rewrite (Qceiling_comp _ _ E). apply Qceiling_Z.
Qed.

End ExactFacts.

Import Exact ExactFacts.

(** ** Claims on the window, exact arithmetic *)

(** C1, amended. Under exact arithmetic, for every qpm > 0 and integer
    steps_per_quarter > 0 the window computation does not raise before
    the length check, its step duration is
    60 / qpm / steps_per_quarter, and for every primer_total_time (in
    particular every one >= 0) its primer_length_steps is the ceiling
    of primer_total_time divided by that step duration: the one
    integer n with n - 1 < primer_total_time / step_duration <= n. *)
Theorem C1_step_duration_and_primer_steps_exact :
  forall (qpm : Q) (steps_per_quarter : Z) (primer_total_time : Q),
    0 < qpm -> (0 < steps_per_quarter)%Z ->
    exists p : PrimerWindow Q,
      primer_window qpm steps_per_quarter primer_total_time = inr p
      /\ seconds_per_step p = 60 / qpm / inject_Z steps_per_quarter
      /\ primer_sequence_length_steps p
         = Qceiling (primer_total_time / (60 / qpm / inject_Z steps_per_quarter))
      /\ inject_Z (primer_sequence_length_steps p - 1)
         < primer_total_time / (60 / qpm / inject_Z steps_per_quarter)
      /\ primer_total_time / (60 / qpm / inject_Z steps_per_quarter)
         <= inject_Z (primer_sequence_length_steps p).
Proof.
  intros qpm spq t Hq Hs.
  exists (primer_locals qpm spq t). split; [|split; [|split; [|split]]].
  - apply primer_window_exact; assumption.
  - reflexivity.
  - reflexivity.
  - apply Qceiling_lt.
  - apply Qle_ceiling.
Qed.

Lemma C1_witness :
  exists p : PrimerWindow Q,
    primer_window 104 4 (75 # 10) = inr p
    /\ seconds_per_step p = 60 / 104 / inject_Z 4
    /\ primer_sequence_length_steps p
       = Qceiling ((75 # 10) / (60 / 104 / inject_Z 4))
    /\ inject_Z (primer_sequence_length_steps p - 1)
       < (75 # 10) / (60 / 104 / inject_Z 4)
    /\ (75 # 10) / (60 / 104 / inject_Z 4)
       <= inject_Z (primer_sequence_length_steps p).
Proof.
  apply (@C1_step_duration_and_primer_steps_exact 104 4 (75 # 10)).
  - reflexivity.
  - reflexivity.
Defined.

(** C2, amended. Under exact arithmetic, for qpm > 0 and
    steps_per_quarter > 0: when primer_total_time > 0 then
    primer_length_time > 0 and epsilon = 1/100000; when
    primer_total_time = 0 then epsilon = 0; in both cases epsilon is
    1/100000 exactly when primer_length_time > 0; primer_start = 0,
    primer_end = primer_length_time - epsilon, and whenever the
    generation window is computed, gen_start = primer_end,
    gen_end = gen_start + gen_length_time + epsilon and
    gen_end - gen_start = gen_length_time + epsilon. *)
Theorem C2_epsilon_and_boundaries_exact :
  forall (qpm : Q) (steps_per_quarter : Z) (primer_total_time : Q)
         (total_length_steps : Z),
    0 < qpm -> (0 < steps_per_quarter)%Z -> 0 <= primer_total_time ->
    exists p : PrimerWindow Q,
      primer_window qpm steps_per_quarter primer_total_time = inr p
      /\ (0 < primer_total_time ->
          0 < primer_sequence_length_time p /\ primer_end_adjust p = 1 # 100000)
      /\ (primer_total_time == 0 -> primer_end_adjust p = 0)
      /\ primer_end_adjust p
         = (if float_gt0 (primer_sequence_length_time p) then 1 # 100000 else 0)
      /\ primer_start_time p = 0%Z
      /\ primer_end_time p == primer_sequence_length_time p - primer_end_adjust p
      /\ forall g : GenerationWindow Q,
            generation_window p total_length_steps = inr g ->
            generation_start_time g = primer_end_time p
            /\ generation_end_time g
               == generation_start_time g + generation_length_time g
                  + primer_end_adjust p
            /\ generation_end_time g - generation_start_time g
               == generation_length_time g + primer_end_adjust p.
Proof.
  intros qpm spq t total Hq Hs Ht.
  pose proof (step_duration_pos Hq Hs) as Hstep.
  exists (primer_locals qpm spq t).
  split; [apply primer_window_exact; assumption|].
  split; [|split; [|split; [|split; [|split]]]].
  - intros Hpos. cbn.
    assert (Htime : 0 < inject_Z (Qceiling (t / step_duration qpm spq))
                        * step_duration qpm spq).
    { pose proof (ceiling_covers t Hstep). lra. }
    split; [exact Htime|].
    apply gt0_true in Htime. rewrite Htime. reflexivity.
  - intros Hzero. cbn. rewrite (ceiling_zero Hstep Hzero).
    assert (E : Exact.gt0 (inject_Z 0 * step_duration qpm spq) = false)
      by (apply gt0_false; change (inject_Z 0) with 0; lra).
    rewrite E. reflexivity.
  - reflexivity.
  - reflexivity.
  - cbn. ring.
  - intros g Hg. unfold generation_window in Hg.
    destruct (_ <=? 0)%Z; [discriminate|].
    cbn in Hg. injection Hg as <-. cbn.
    split; [reflexivity|]. split; ring.
Qed.

Lemma C2_witness :
  exists p : PrimerWindow Q,
    primer_window 120 4 (3 # 2) = inr p
    /\ (0 < 3 # 2 ->
        0 < primer_sequence_length_time p /\ primer_end_adjust p = 1 # 100000)
    /\ (3 # 2 == 0 -> primer_end_adjust p = 0)
    /\ primer_end_adjust p
       = (if float_gt0 (primer_sequence_length_time p) then 1 # 100000 else 0)
    /\ primer_start_time p = 0%Z
    /\ primer_end_time p == primer_sequence_length_time p - primer_end_adjust p
    /\ forall g : GenerationWindow Q,
          generation_window p 32 = inr g ->
          generation_start_time g = primer_end_time p
          /\ generation_end_time g
             == generation_start_time g + generation_length_time g
                + primer_end_adjust p
          /\ generation_end_time g - generation_start_time g
             == generation_length_time g + primer_end_adjust p.
Proof.
  apply (@C2_epsilon_and_boundaries_exact 120 4 (3 # 2) 32).
  - reflexivity.
  - reflexivity.
  - discriminate.
Defined.

(** The whole window on a valid input, exact arithmetic. *)
Lemma window_exact (qpm : Q) (spq : Z) (t : Q) (total : Z) :
  0 < qpm -> (0 < spq)%Z ->
  (Qceiling (t / step_duration qpm spq) < total)%Z ->
  window qpm spq t total
  = inr (primer_locals qpm spq t,
         generation_locals (primer_locals qpm spq t) total).
Proof.
  intros Hq Hs Hlt. unfold window.
  rewrite (primer_window_exact t Hq Hs). cbn [bind].
  rewrite generation_window_exact by exact Hlt. reflexivity.
Qed.

(** C4. For every valid input (qpm > 0, steps_per_quarter > 0,
    primer_total_time >= 0, total_length_steps > primer_length_steps),
    under exact arithmetic the window is computed, the epsilon taken
    off at primer_end (primer_end = primer_length_steps * step_duration
    - epsilon) is given back at gen_end, and
    gen_end = total_length_steps * (60 / qpm / steps_per_quarter): the
    generated segment ends on a step boundary. *)
Theorem C4_generation_ends_on_step_boundary :
  forall (qpm : Q) (steps_per_quarter : Z) (primer_total_time : Q)
         (total_length_steps : Z),
    0 < qpm -> (0 < steps_per_quarter)%Z -> 0 <= primer_total_time ->
    (Qceiling (primer_total_time / (60 / qpm / inject_Z steps_per_quarter))
     < total_length_steps)%Z ->
    exists (p : PrimerWindow Q) (g : GenerationWindow Q),
      window qpm steps_per_quarter primer_total_time total_length_steps
      = inr (p, g)
      /\ seconds_per_step p = 60 / qpm / inject_Z steps_per_quarter
      /\ primer_sequence_length_steps p
         = Qceiling (primer_total_time / (60 / qpm / inject_Z steps_per_quarter))
      /\ primer_end_time p
         == inject_Z (primer_sequence_length_steps p)
            * (60 / qpm / inject_Z steps_per_quarter)
            - primer_end_adjust p
      /\ generation_end_time g
         == primer_end_time p
            + inject_Z (total_length_steps - primer_sequence_length_steps p)
              * (60 / qpm / inject_Z steps_per_quarter)
            + primer_end_adjust p
      /\ generation_end_time g
         == inject_Z total_length_steps
            * (60 / qpm / inject_Z steps_per_quarter).
Proof.
  intros qpm spq t total Hq Hs _ Hlt.
  exists (primer_locals qpm spq t),
         (generation_locals (primer_locals qpm spq t) total).
  split; [apply window_exact; assumption|].
  split; [reflexivity|]. split; [reflexivity|].
  cbn. change (60 / qpm / inject_Z spq) with (step_duration qpm spq).
  unfold Z.sub. rewrite inject_Z_plus, inject_Z_opp.
  split; [ring|]. split; ring.
Qed.

Lemma C4_witness :
  exists (p : PrimerWindow Q) (g : GenerationWindow Q),
    window 120 4 (3 # 2) 32 = inr (p, g)
    /\ seconds_per_step p = 60 / 120 / inject_Z 4
    /\ primer_sequence_length_steps p
       = Qceiling ((3 # 2) / (60 / 120 / inject_Z 4))
    /\ primer_end_time p
       == inject_Z (primer_sequence_length_steps p) * (60 / 120 / inject_Z 4)
          - primer_end_adjust p
    /\ generation_end_time g
       == primer_end_time p
          + inject_Z (32 - primer_sequence_length_steps p)
            * (60 / 120 / inject_Z 4)
          + primer_end_adjust p
    /\ generation_end_time g == inject_Z 32 * (60 / 120 / inject_Z 4).
Proof.
  apply (@C4_generation_ends_on_step_boundary 120 4 (3 # 2) 32).
  - reflexivity.
  - reflexivity.
  - discriminate.
  - reflexivity.
Defined.

(** C9. For every input that passes validation (qpm > 0,
    steps_per_quarter > 0, total_length_steps > primer_length_steps),
    under exact arithmetic the generation window is not empty:
    gen_end - gen_start = gen_length_time + epsilon >= step_duration > 0,
    hence gen_start < gen_end. *)
Theorem C9_generation_window_nonempty :
  forall (qpm : Q) (steps_per_quarter : Z) (primer_total_time : Q)
         (total_length_steps : Z),
    0 < qpm -> (0 < steps_per_quarter)%Z ->
    (Qceiling (primer_total_time / (60 / qpm / inject_Z steps_per_quarter))
     < total_length_steps)%Z ->
    exists (p : PrimerWindow Q) (g : GenerationWindow Q),
      window qpm steps_per_quarter primer_total_time total_length_steps
      = inr (p, g)
      /\ generation_end_time g - generation_start_time g
         == generation_length_time g + primer_end_adjust p
      /\ seconds_per_step p <= generation_length_time g + primer_end_adjust p
      /\ 0 < seconds_per_step p
      /\ generation_start_time g < generation_end_time g.
Proof.
  intros qpm spq t total Hq Hs Hlt.
  pose proof (step_duration_pos Hq Hs) as Hstep.
  exists (primer_locals qpm spq t),
         (generation_locals (primer_locals qpm spq t) total).
  split; [apply window_exact; assumption|].
  cbn.
  change (60 / qpm / inject_Z spq) with (step_duration qpm spq) in Hlt.
  set (s := step_duration qpm spq) in *.
  set (n := Qceiling (t / s)) in *.
  assert (Hadj : 0 <= (if Exact.gt0 (inject_Z n * s) then 1 # 100000 else 0))
    by (destruct (Exact.gt0 _); discriminate).
  assert (Hone : 1 <= inject_Z (total - n)).
  { change 1 with (inject_Z 1). rewrite <- Zle_Qle. lia. }
  assert (Hlen : s <= inject_Z (total - n) * s).
  { apply (Qmult_le_compat_r _ _ s) in Hone; [|apply Qlt_le_weak; exact Hstep].
    rewrite Qmult_1_l in Hone. exact Hone. }
  set (a := if Exact.gt0 (inject_Z n * s) then 1 # 100000 else 0) in *.
  set (gt := inject_Z (total - n) * s) in *.
  set (pt := inject_Z n * s) in *.
  assert (Hdiff : 0 + pt - a + gt + a - (0 + pt - a) == gt + a) by ring.
  repeat split.
  - exact Hdiff.
  - lra.
  - exact Hstep.
  - lra.
Qed.

Lemma C9_witness :
  exists (p : PrimerWindow Q) (g : GenerationWindow Q),
    window 120 4 (3 # 2) 32 = inr (p, g)
    /\ generation_end_time g - generation_start_time g
       == generation_length_time g + primer_end_adjust p
    /\ seconds_per_step p <= generation_length_time g + primer_end_adjust p
    /\ 0 < seconds_per_step p
    /\ generation_start_time g < generation_end_time g.
Proof.
  apply (@C9_generation_window_nonempty 120 4 (3 # 2) 32).
  - reflexivity.
  - reflexivity.
  - reflexivity.
Defined.

(** C10, amended. Under exact arithmetic, for every primer_total_time
    (in particular every one >= 0) and every step duration > 0 that the
    tempo and the steps per quarter give, the rounded primer window
    covers the primer and overshoots it by less than one step:
    primer_total_time <= primer_length_steps * step_duration
    < primer_total_time + step_duration. *)
Theorem C10_primer_window_covers_exact :
  forall (qpm : Q) (steps_per_quarter : Z) (primer_total_time step_duration : Q),
    seconds_per_step_of qpm steps_per_quarter = inr step_duration ->
    0 < step_duration ->
    exists p : PrimerWindow Q,
      primer_window qpm steps_per_quarter primer_total_time = inr p
      /\ seconds_per_step p = step_duration
      /\ primer_sequence_length_time p
         = inject_Z (primer_sequence_length_steps p) * step_duration
      /\ primer_total_time <= primer_sequence_length_time p
      /\ primer_sequence_length_time p < primer_total_time + step_duration.
Proof.
  intros qpm spq t s Hsps Hs.
  exists (primer_locals_at s t). split.
  - apply primer_window_at; assumption.
  - cbn. split; [reflexivity|]. split; [reflexivity|]. split.
    + apply ceiling_covers; assumption.
    + apply ceiling_overshoot; assumption.
Qed.

Lemma C10_witness :
  exists p : PrimerWindow Q,
    primer_window 100 4 (18 # 10) = inr p
    /\ seconds_per_step p = 60 / 100 / inject_Z 4
    /\ primer_sequence_length_time p
       = inject_Z (primer_sequence_length_steps p) * (60 / 100 / inject_Z 4)
    /\ 18 # 10 <= primer_sequence_length_time p
    /\ primer_sequence_length_time p < (18 # 10) + 60 / 100 / inject_Z 4.
Proof.
  apply (@C10_primer_window_covers_exact 100 4 (18 # 10) (60 / 100 / inject_Z 4)).
  - reflexivity.
  - reflexivity.
Defined.

(** ** Claims on the window, double precision *)

Module Binary64Facts.

Import Binary64.

(** The doubles denoted by the literals of the source. *)
Example lit_60_bits : decimal 60 0 = S754_finite false 8444249301319680 (-47).
Proof. vm_compute. reflexivity. Qed.

Example lit_0_00001_bits :
  decimal 1 5 = S754_finite false 5902958103587057 (-69).
Proof. vm_compute. reflexivity. Qed.

(** [math.ceil] rounds towards plus infinity, on both sides of zero. *)
Example ceil_values :
  ceil (decimal 25 1) = inr 3%Z /\ ceil (decimal (-25) 1) = inr (-2)%Z
  /\ ceil (decimal 1 1) = inr 1%Z /\ ceil (decimal (-1) 1) = inr 0%Z
  /\ ceil (decimal 3 0) = inr 3%Z.
Proof. repeat split; vm_compute; reflexivity. Qed.

(** An empty primer with a finite, non-zero step duration: the
    quotient, the ceiling, the primer time and the adjustment are all
    zero, and no exception is raised. *)
Lemma primer_window_empty (qpm : float) (spq : Z) (s z : bool)
      (m : positive) (e : Z) :
  seconds_per_step_of qpm spq = inr (S754_finite s m e) ->
  primer_window qpm spq (S754_zero z)
  = inr {| seconds_per_step := S754_finite s m e;
           primer_sequence_length_steps := 0;
           primer_sequence_length_time := S754_zero s;
           primer_end_adjust := S754_zero false;
           primer_start_time := 0;
           primer_end_time := S754_zero false |}.
Proof.
  intros Hsps. unfold primer_window. rewrite Hsps.
  destruct s, z; reflexivity.
Qed.

End Binary64Facts.

(** C1, as stated, fails in double precision.  With qpm = 104.0,
    steps_per_quarter = 4 and a primer of 7.5 s (all three exact as
    doubles) the code computes the step duration 0.14423076923076922,
    which is not 60/104/4 = 15/104, the quotient 52.00000000000001 and
    so 53 primer steps, whereas ceil(7.5 / (60/104/4)) = ceil(52) = 52. *)
Lemma C1_counterexample_binary64 :
  Binary64.is_exactly (Binary64.decimal 104 0) 104
  /\ Binary64.is_exactly (Binary64.decimal 75 1) (75 # 10)
  /\ primer_window (Binary64.decimal 104 0) 4 (Binary64.decimal 75 1)
     = inr {| seconds_per_step := S754_finite false 5196461108504418 (-55);
              primer_sequence_length_steps := 53;
              primer_sequence_length_time :=
                S754_finite false 8606638710960442 (-50);
              primer_end_adjust := Binary64.decimal 1 5;
              primer_start_time := 0;
              primer_end_time := S754_finite false 8606627451961374 (-50) |}
  /\ ~ Binary64.is_exactly (S754_finite false 5196461108504418 (-55))
                           (60 / 104 / inject_Z 4)
  /\ Qceiling ((75 # 10) / (60 / 104 / inject_Z 4)) = 52%Z.
Proof.
  split; [vm_compute; reflexivity|].
  split; [vm_compute; reflexivity|].
  split; [vm_compute; reflexivity|].
  split; [vm_compute; discriminate|].
  vm_compute. reflexivity.
Qed.

(** C6, as stated, fails in double precision.  With the smallest
    positive double as qpm (5e-324), steps_per_quarter = 4 and an empty
    primer the step duration overflows to infinity, the primer length
    time is 0 * inf = NaN, and primer_end is NaN, not 0; no exception
    is raised. *)
Lemma C6_counterexample_binary64 :
  Binary64.gt0 (S754_finite false 1 (-1074)) = true
  /\ primer_window (S754_finite false 1 (-1074)) 4 (S754_zero false)
     = inr {| seconds_per_step := S754_infinity false;
              primer_sequence_length_steps := 0;
              primer_sequence_length_time := S754_nan;
              primer_end_adjust := S754_zero false;
              primer_start_time := 0;
              primer_end_time := S754_nan |}
  /\ window (S754_finite false 1 (-1074)) 4 (S754_zero false) 16
     = inr ({| seconds_per_step := S754_infinity false;
               primer_sequence_length_steps := 0;
               primer_sequence_length_time := S754_nan;
               primer_end_adjust := S754_zero false;
               primer_start_time := 0;
               primer_end_time := S754_nan |},
            {| generation_length_steps := 16;
               generation_length_time := S754_infinity false;
               generation_start_time := S754_nan;
               generation_end_time := S754_nan |}).
Proof.
  repeat split; vm_compute; reflexivity.
Qed.

(** C2, as stated, fails in double precision.  With qpm = 120.0,
    steps_per_quarter = 4, a primer of 0.25 s and total_length_steps = 8
    the code computes primer_end = 0.24999, gen_length_time = 0.75 and
    gen_end = 0.9999999999999999, so gen_end - gen_start is
    0.7500099999999998 whereas gen_length_time + epsilon is 0.75001. *)
Lemma C2_counterexample_binary64 :
  window (Binary64.decimal 120 0) 4 (Binary64.decimal 25 2) 8
  = inr ({| seconds_per_step := Binary64.decimal 125 3;
            primer_sequence_length_steps := 2;
            primer_sequence_length_time := Binary64.decimal 25 2;
            primer_end_adjust := Binary64.decimal 1 5;
            primer_start_time := 0;
            primer_end_time := Binary64.decimal 24999 5 |},
         {| generation_length_steps := 6;
            generation_length_time := Binary64.decimal 75 2;
            generation_start_time := Binary64.decimal 24999 5;
            generation_end_time := S754_finite false 9007199254740991 (-53) |})
  /\ Binary64.gt0 (Binary64.decimal 120 0) = true
  /\ Binary64.gt0 (Binary64.decimal 25 2) = true
  /\ SFsub Binary64.prec Binary64.emax
           (S754_finite false 9007199254740991 (-53)) (Binary64.decimal 24999 5)
     <> SFadd Binary64.prec Binary64.emax
              (Binary64.decimal 75 2) (Binary64.decimal 1 5)
  /\ SFeqb (SFsub Binary64.prec Binary64.emax
                  (S754_finite false 9007199254740991 (-53))
                  (Binary64.decimal 24999 5))
           (SFadd Binary64.prec Binary64.emax
                  (Binary64.decimal 75 2) (Binary64.decimal 1 5))
     = false.
Proof.
  split; [vm_compute; reflexivity|].
  split; [reflexivity|]. split; [reflexivity|].
  split; [vm_compute; discriminate|vm_compute; reflexivity].
Qed.

(** C10, as stated, fails in double precision.  With qpm = 100.0 and
    steps_per_quarter = 4 the step duration is 0.15; a primer of 1.8 s
    gives ceil(1.8 / 0.15) = 12 steps and 12 * 0.15 =
    1.7999999999999998, which is below the primer's 1.8 s. *)
Lemma C10_counterexample_binary64 :
  primer_window (Binary64.decimal 100 0) 4 (Binary64.decimal 18 1)
  = inr {| seconds_per_step := Binary64.decimal 15 2;
           primer_sequence_length_steps := 12;
           primer_sequence_length_time := S754_finite false 8106479329266892 (-52);
           primer_end_adjust := Binary64.decimal 1 5;
           primer_start_time := 0;
           primer_end_time := S754_finite false 8106434293270618 (-52) |}
  /\ Binary64.decimal 18 1 = S754_finite false 8106479329266893 (-52)
  /\ SFleb (S754_zero false) (Binary64.decimal 18 1) = true
  /\ Binary64.gt0 (Binary64.decimal 15 2) = true
  /\ SFleb (Binary64.decimal 18 1) (S754_finite false 8106479329266892 (-52))
     = false
  /\ SFltb (S754_finite false 8106479329266892 (-52)) (Binary64.decimal 18 1)
     = true.
Proof.
  repeat split; vm_compute; reflexivity.
Qed.

(** C6, amended. With primer_total_time = 0 and a finite, non-zero
    step duration: primer_length_steps = 0, primer_end = 0 and
    epsilon = 0.  Under exact arithmetic that is every qpm > 0 and
    steps_per_quarter > 0; in double precision it is every tempo and
    steps per quarter whose step duration is a finite non-zero double.
    With qpm = 120, steps_per_quarter = 4 and total_length_steps = 16,
    gen_length_steps = 16 and gen_end = 16 * 0.125 = 2.0, in both
    arithmetics. *)
Theorem C6_empty_primer :
  (forall (qpm : Q) (steps_per_quarter : Z) (primer_total_time : Q),
      0 < qpm -> (0 < steps_per_quarter)%Z -> primer_total_time == 0 ->
      exists p : PrimerWindow Q,
        primer_window qpm steps_per_quarter primer_total_time = inr p
        /\ primer_sequence_length_steps p = 0%Z
        /\ primer_end_time p == 0
        /\ primer_end_adjust p = 0)
  /\ (forall (qpm : Binary64.float) (steps_per_quarter : Z) (s z : bool)
             (m : positive) (e : Z),
         seconds_per_step_of qpm steps_per_quarter = inr (S754_finite s m e) ->
         exists p : PrimerWindow Binary64.float,
           primer_window qpm steps_per_quarter (S754_zero z) = inr p
           /\ primer_sequence_length_steps p = 0%Z
           /\ primer_end_time p = S754_zero false
           /\ primer_end_adjust p = S754_zero false)
  /\ window (Binary64.decimal 120 0) 4 (S754_zero false) 16
     = inr ({| seconds_per_step := Binary64.decimal 125 3;
               primer_sequence_length_steps := 0;
               primer_sequence_length_time := S754_zero false;
               primer_end_adjust := S754_zero false;
               primer_start_time := 0;
               primer_end_time := S754_zero false |},
            {| generation_length_steps := 16;
               generation_length_time := Binary64.decimal 2 0;
               generation_start_time := S754_zero false;
               generation_end_time := Binary64.decimal 2 0 |})
  /\ SFmul Binary64.prec Binary64.emax
           (Binary64.decimal 16 0) (Binary64.decimal 125 3)
     = Binary64.decimal 2 0
  /\ exists (p : PrimerWindow Q) (g : GenerationWindow Q),
       window 120 4 0 16 = inr (p, g)
       /\ primer_end_time p == 0
       /\ generation_length_steps g = 16%Z
       /\ generation_end_time g == 16 * (125 # 1000)
       /\ generation_end_time g == 2.
Proof.
  split; [|split; [|split; [|split]]].
  - intros qpm spq t Hq Hs Ht.
    pose proof (step_duration_pos Hq Hs) as Hstep.
    exists (primer_locals qpm spq t).
    split; [apply primer_window_exact; assumption|].
    cbn. rewrite (ceiling_zero Hstep Ht).
    assert (E : Exact.gt0 (inject_Z 0 * step_duration qpm spq) = false)
      by (apply gt0_false; change (inject_Z 0) with 0; lra).
    rewrite E. split; [reflexivity|]. split; [|reflexivity].
    change (inject_Z 0) with 0. ring.
  - intros qpm spq s z m e Hsps. eexists. split.
    + apply Binary64Facts.primer_window_empty. exact Hsps.
    + cbn. repeat split.
  - vm_compute. reflexivity.
  - vm_compute. reflexivity.
  - eexists _, _. split; [vm_compute; reflexivity|].
    cbn. repeat split; reflexivity.
Qed.

Lemma C6_witness :
  (exists p : PrimerWindow Q,
      primer_window 120 4 0 = inr p
      /\ primer_sequence_length_steps p = 0%Z
      /\ primer_end_time p == 0
      /\ primer_end_adjust p = 0)
  /\ exists p : PrimerWindow Binary64.float,
       primer_window (Binary64.decimal 120 0) 4 (S754_zero false) = inr p
       /\ primer_sequence_length_steps p = 0%Z
       /\ primer_end_time p = S754_zero false
       /\ primer_end_adjust p = S754_zero false.
Proof.
  split.
  - apply (proj1 C6_empty_primer 120 4%Z 0).
    + reflexivity.
    + reflexivity.
    + reflexivity.
  - apply (proj1 (proj2 C6_empty_primer) (Binary64.decimal 120 0) 4%Z
             false false 4503599627370496%positive (-55)%Z).
    vm_compute. reflexivity.
Defined.

(** C7. On qpm = 120, steps_per_quarter = 4, primer_total_time = 1.5,
    total_length_steps = 32 the computation yields step_duration = 0.125,
    primer_length_steps = 12, primer_length_time = 1.5, epsilon = 1e-5,
    primer_end = 1.49999, gen_length_steps = 20, gen_length_time = 2.5,
    gen_start = 1.49999 and gen_end = 4.0: in double precision every
    value is the double that the decimal literal denotes, and under
    exact arithmetic every value is the rational itself. *)
Theorem C7_worked_example :
  window (Binary64.decimal 120 0) 4 (Binary64.decimal 15 1) 32
  = inr ({| seconds_per_step := Binary64.decimal 125 3;
            primer_sequence_length_steps := 12;
            primer_sequence_length_time := Binary64.decimal 15 1;
            primer_end_adjust := Binary64.decimal 1 5;
            primer_start_time := 0;
            primer_end_time := Binary64.decimal 149999 5 |},
         {| generation_length_steps := 20;
            generation_length_time := Binary64.decimal 25 1;
            generation_start_time := Binary64.decimal 149999 5;
            generation_end_time := Binary64.decimal 4 0 |})
  /\ exists (p : PrimerWindow Q) (g : GenerationWindow Q),
       window 120 4 (15 # 10) 32 = inr (p, g)
       /\ seconds_per_step p == 125 # 1000
       /\ primer_sequence_length_steps p = 12%Z
       /\ primer_sequence_length_time p == 15 # 10
       /\ primer_end_adjust p == 1 # 100000
       /\ primer_end_time p == 149999 # 100000
       /\ generation_length_steps g = 20%Z
       /\ generation_length_time g == 25 # 10
       /\ generation_start_time g == 149999 # 100000
       /\ generation_end_time g == 4.
Proof.
  split; [vm_compute; reflexivity|].
  eexists _, _. split; [vm_compute; reflexivity|].
  cbn. repeat split; reflexivity.
Qed.

(** ** The orchestrator *)

Section GenerateFacts.

Context {F : Type} `{PyFloat F}.
Variables Bundle PrettyMIDI : Type.
Variable W : World (F:=F) Bundle PrettyMIDI.

Abbreviation event := (event (F:=F)).
Abbreviation is_generate := (is_generate (F:=F)).

(** Destructs the outcome of every call of a run unfolded in [Hrun]. *)
Ltac run_cases Hrun :=
  repeat match type of Hrun with
         | context [match ?c with _ => _ end] =>
             let E := fresh "E" in destruct c eqn:E
         end.

Ltac in_log :=
  solve [repeat first [left; reflexivity | right]].

Ltac close_log :=
  eexists; split; [rewrite <- ?app_assoc; cbn [app]; reflexivity | reflexivity].

(** The acquisition phase never reaches the generation service. *)
Lemma acquire_events bundle_name sequence_generator generator_id primer_filename
      (log log' : list event) r :
  acquire W bundle_name sequence_generator generator_id primer_filename log
  = (r, log') ->
  exists evs, log' = log ++ evs /\ existsb is_generate evs = false.
Proof.
  unfold acquire, io_bind, call, lift, io_ret. intros Hrun.
  destruct (truthy primer_filename);
    run_cases Hrun; injection Hrun as <- <-; close_log.
Qed.

(** Neither do the two printed lines. *)
Lemma print_windows_run (p : PrimerWindow F) (g : GenerationWindow F)
      (log : list event) :
  exists evs,
    print_windows W p g log = (inr tt, log ++ evs)
    /\ existsb is_generate evs = false.
Proof.
  unfold print_windows, print, io_bind, call. cbn.
  eexists. split; [rewrite <- ?app_assoc; cbn [app]; reflexivity | reflexivity].
Qed.

(** The persistence phase hands the sequence it was given to both
    writers and never calls the generation service. *)
Lemma persist_events generator generator_id show_plot sequence
      (log log' : list event) r :
  persist W generator generator_id show_plot sequence log = (r, log') ->
  exists evs,
    log' = log ++ evs
    /\ existsb is_generate evs = false
    /\ (r = inr tt ->
        (exists path, In (ev_note_sequence_to_midi_file sequence path) evs)
        /\ In (ev_note_sequence_to_pretty_midi sequence) evs).
Proof.
  unfold persist, time_strftime, print, io_bind, call, lift, io_ret.
  intros Hrun.
  destruct show_plot; run_cases Hrun; injection Hrun as <- <-;
    (eexists; split; [rewrite <- ?app_assoc; cbn [app]; reflexivity|];
     split; [reflexivity|]; intros Hr;
     first [ discriminate Hr
           | split; [eexists|]; cbn [In]; in_log ]).
Qed.

(** The length check happens before anything else of the second
    phase. *)
Lemma generate_from_too_small generator primer_sequence qpm generator_id
      total_length_steps temperature beam_size branch_factor
      steps_per_iteration show_plot (log : list event) (p : PrimerWindow F) :
  primer_window qpm (getattr_steps_per_quarter generator)
                (total_time primer_sequence) = inr p ->
  (total_length_steps - primer_sequence_length_steps p <= 0)%Z ->
  generate_from W generator primer_sequence qpm generator_id total_length_steps
                temperature beam_size branch_factor steps_per_iteration
                show_plot log
  = (inl (Exception (length_message total_length_steps
                                    (primer_sequence_length_steps p))), log).
Proof.
  intros Hp Hle. unfold generate_from, io_bind, lift, window.
  rewrite Hp. cbn [bind].
  rewrite (generation_window_too_small p total_length_steps Hle). reflexivity.
Qed.

(** The two phases of [generate]. *)
Lemma generate_phases bundle_name sequence_generator generator_id primer_filename
      qpm total_length_steps temperature beam_size branch_factor
      steps_per_iteration show_plot (log log1 : list event) generator
      primer_sequence :
  acquire W bundle_name sequence_generator generator_id primer_filename log
  = (inr (generator, primer_sequence), log1) ->
  generate W bundle_name sequence_generator generator_id primer_filename qpm
           total_length_steps temperature beam_size branch_factor
           steps_per_iteration show_plot log
  = match resolve_qpm primer_sequence qpm with
    | inl e => (inl e, log1)
    | inr primer_qpm =>
        generate_from W generator primer_sequence primer_qpm generator_id
                      total_length_steps temperature beam_size branch_factor
                      steps_per_iteration show_plot log1
    end.
Proof.
  intros Hacq. unfold generate. unfold io_bind at 1. rewrite Hacq.
  cbn [fst snd]. unfold io_bind at 1. unfold lift at 1.
  destruct (resolve_qpm primer_sequence qpm); reflexivity.
Qed.

(** C3. Whenever the generator and the primer were obtained, the tempo
    was resolved and total_length_steps - primer_length_steps <= 0, the
    call fails with the exception of lines 168-171, whose message
    carries the requested total_length_steps and the computed
    primer_length_steps, and no call of the generation service is among
    the calls made. *)
Theorem C3_total_length_too_small :
  forall bundle_name sequence_generator generator_id primer_filename qpm
         total_length_steps temperature beam_size branch_factor
         steps_per_iteration show_plot (log log1 : list event)
         generator primer_sequence primer_qpm (p : PrimerWindow F),
    acquire W bundle_name sequence_generator generator_id primer_filename log
    = (inr (generator, primer_sequence), log1) ->
    resolve_qpm primer_sequence qpm = inr primer_qpm ->
    primer_window primer_qpm (getattr_steps_per_quarter generator)
                  (total_time primer_sequence) = inr p ->
    (total_length_steps - primer_sequence_length_steps p <= 0)%Z ->
    generate W bundle_name sequence_generator generator_id primer_filename qpm
             total_length_steps temperature beam_size branch_factor
             steps_per_iteration show_plot log
    = (inl (Exception (length_message total_length_steps
                                      (primer_sequence_length_steps p))), log1)
    /\ length_message total_length_steps (primer_sequence_length_steps p)
       = ("Total length in steps too small ("
          ++ str_int total_length_steps
          ++ "), needs to be at least one bar bigger than primer ("
          ++ str_int (primer_sequence_length_steps p) ++ ")")%string
    /\ exists evs, log1 = log ++ evs /\ existsb is_generate evs = false.
Proof.
  intros bn sg gid pf qpm total temp bs bf spi show log log1 g ps q p
         Hacq Hqpm Hp Hle.
  split; [|split].
  - erewrite generate_phases by exact Hacq. rewrite Hqpm.
    apply generate_from_too_small; assumption.
  - reflexivity.
  - eapply acquire_events. exact Hacq.
Qed.

(** C5. The tempo resolution: a primer that declares more than one
    tempo makes the call fail with the exception of line 137; a primer
    that declares exactly one tempo gives that tempo's qpm, whatever
    qpm the caller passed; a primer that declares none gives the
    caller's qpm; and [generate] continues with the resolved tempo, or
    stops on that exception, as soon as the primer is loaded. *)
Theorem C5_tempo_resolution :
  forall (primer_sequence : NoteSequence) (qpm : F),
    ((1 < List.length (tempos primer_sequence))%nat ->
     resolve_qpm primer_sequence qpm
     = inl (Exception "No support for multiple tempos"))
    /\ (forall tempo, tempos primer_sequence = [tempo] ->
        forall other_qpm,
          resolve_qpm primer_sequence other_qpm = inr (tempo_qpm tempo))
    /\ (tempos primer_sequence = [] -> resolve_qpm primer_sequence qpm = inr qpm)
    /\ forall bundle_name sequence_generator generator_id primer_filename
              total_length_steps temperature beam_size branch_factor
              steps_per_iteration show_plot (log log1 : list event) generator,
        acquire W bundle_name sequence_generator generator_id primer_filename log
        = (inr (generator, primer_sequence), log1) ->
        generate W bundle_name sequence_generator generator_id primer_filename
                 qpm total_length_steps temperature beam_size branch_factor
                 steps_per_iteration show_plot log
        = match resolve_qpm primer_sequence qpm with
          | inl e => (inl e, log1)
          | inr primer_qpm =>
              generate_from W generator primer_sequence primer_qpm generator_id
                            total_length_steps temperature beam_size
                            branch_factor steps_per_iteration show_plot log1
          end.
Proof.
  intros ps qpm. split; [|split; [|split]].
  - unfold resolve_qpm. intros Hlen.
    destruct (tempos ps) as [|t1 rest]; [inversion Hlen|].
    destruct (Z.ltb_spec 1 (Z.of_nat (List.length (t1 :: rest))));
      [reflexivity|lia].
  - intros tempo Hone other. unfold resolve_qpm. rewrite Hone. reflexivity.
  - intros Hnone. unfold resolve_qpm. rewrite Hnone. reflexivity.
  - intros. apply generate_phases. assumption.
Qed.

End GenerateFacts.

Lemma C3_witness :
  Demo.run 12 []
  = (inl (Exception (length_message 12 12)),
     [ev_download_bundle "basic_rnn.mag" "bundles";
      ev_read_bundle_file "bundles/basic_rnn.mag";
      ev_get_generator_map;
      ev_construct_generator "basic_rnn";
      ev_initialize;
      ev_midi_file_to_note_sequence "primers/Fur_Elisa_Beethoveen_Monophonic.mid"])
  /\ length_message 12 12
     = ("Total length in steps too small (" ++ str_int 12
        ++ "), needs to be at least one bar bigger than primer ("
        ++ str_int 12 ++ ")")%string
  /\ exists evs,
       [ev_download_bundle "basic_rnn.mag" "bundles";
        ev_read_bundle_file "bundles/basic_rnn.mag";
        ev_get_generator_map;
        ev_construct_generator "basic_rnn";
        ev_initialize;
        ev_midi_file_to_note_sequence
          "primers/Fur_Elisa_Beethoveen_Monophonic.mid"]
       = [] ++ evs
       /\ existsb (is_generate (F:=Binary64.float)) evs = false.
Proof.
  unfold Demo.run.
  refine (@C3_total_length_too_small _ _ _ _ Demo.world _ _ _ _ _ 12 _ _ _ _ _
            [] _ Demo.melody_rnn Demo.primer (Binary64.decimal 120 0)
            {| seconds_per_step := Binary64.decimal 125 3;
               primer_sequence_length_steps := 12;
               primer_sequence_length_time := Binary64.decimal 15 1;
               primer_end_adjust := Binary64.decimal 1 5;
               primer_start_time := 0;
               primer_end_time := Binary64.decimal 149999 5 |} _ _ _ _).
  - vm_compute. reflexivity.
  - vm_compute. reflexivity.
  - vm_compute. reflexivity.
  - vm_compute. discriminate.
Defined.

Lemma C5_witness :
  resolve_qpm Demo.two_tempos (Binary64.decimal 100 0)
  = inl (Exception "No support for multiple tempos")
  /\ resolve_qpm Demo.primer (Binary64.decimal 100 0)
     = inr (Binary64.decimal 120 0)
  /\ resolve_qpm Demo.no_primer (Binary64.decimal 100 0)
     = inr (Binary64.decimal 100 0).
Proof.
  split; [|split].
  - apply (proj1 (@C5_tempo_resolution _ _ unit unit Demo.world
                    Demo.two_tempos (Binary64.decimal 100 0))).
    cbn. apply Nat.lt_succ_diag_r.
  - apply (proj1 (proj2 (@C5_tempo_resolution _ _ unit unit Demo.world
                           Demo.primer (Binary64.decimal 100 0)))
             {| tempo_qpm := Binary64.decimal 120 0 |}).
    reflexivity.
  - apply (proj1 (proj2 (proj2 (@C5_tempo_resolution _ _ unit unit Demo.world
                                  Demo.no_primer (Binary64.decimal 100 0))))).
    reflexivity.
Defined.

(** * Further facts *)

(** ** [str.split] and the generator name *)

Section StringFacts.

Local Open Scope string_scope.

Lemma str_split_not_nil (sep : ascii) (s : string) : str_split sep s <> [].
Proof.
  destruct s as [|c rest]; cbn; [discriminate|].
  destruct (Ascii.eqb c sep); [discriminate|].
  destruct (str_split sep rest); discriminate.
Qed.

Lemma str_split_length (sep : ascii) (s : string) :
  List.length (str_split sep s) = S (str_count sep s).
Proof.
  induction s as [|c rest IH]; cbn; [reflexivity|].
  destruct (Ascii.eqb c sep); cbn.
  - rewrite IH. reflexivity.
  - destruct (str_split sep rest) as [|h t]; cbn in *;
      [discriminate IH|exact IH].
Qed.

Lemma str_split_pieces (sep : ascii) (s : string) :
  Forall (fun piece => str_count sep piece = 0%nat) (str_split sep s).
Proof.
  induction s as [|c rest IH]; cbn.
  - constructor; [reflexivity|constructor].
  - destruct (Ascii.eqb c sep) eqn:Ec.
    + constructor; [reflexivity|exact IH].
    + destruct (str_split sep rest) as [|h t].
      * constructor; [cbn; rewrite Ec; reflexivity|constructor].
      * inversion IH as [|? ? Hh Ht]; subst.
        constructor; [cbn; rewrite Ec; exact Hh|exact Ht].
Qed.

Lemma str_join_split (sep : ascii) (s : string) :
  str_join sep (str_split sep s) = s.
Proof.
  induction s as [|c rest IH]; cbn; [reflexivity|].
  destruct (Ascii.eqb c sep) eqn:Ec.
  - apply Ascii.eqb_eq in Ec. subst c.
    pose proof (str_split_not_nil sep rest) as Hne.
    destruct (str_split sep rest) as [|h t]; [contradiction|].
    change (str_join sep ("" :: h :: t))
      with ("" ++ String sep (str_join sep (h :: t))).
    cbn [append]. f_equal. exact IH.
  - destruct (str_split sep rest) as [|h t] eqn:Es.
    + exfalso. exact (@str_split_not_nil sep rest Es).
    + destruct t as [|x t'].
      * cbn in *. f_equal. exact IH.
      * change (str_join sep (String c h :: x :: t'))
          with (String c (h ++ String sep (str_join sep (x :: t')))).
        f_equal. exact IH.
Qed.

Lemma str_split_plain (sep : ascii) (a : string) :
  str_count sep a = 0%nat -> str_split sep a = [a].
Proof.
  induction a as [|c rest IH]; cbn; [reflexivity|].
  destruct (Ascii.eqb c sep); cbn; [discriminate|].
  intros Hc. rewrite (IH Hc). reflexivity.
Qed.

Lemma str_split_prefix (sep : ascii) (a rest : string) :
  str_count sep a = 0%nat ->
  str_split sep (a ++ String sep rest) = a :: str_split sep rest.
Proof.
  induction a as [|c a' IH]; cbn.
  - intros _. rewrite Ascii.eqb_refl. reflexivity.
  - destruct (Ascii.eqb c sep); cbn; [discriminate|].
    intros Hc. rewrite (IH Hc). reflexivity.
Qed.

(** X4. Splitting loses nothing: joining the pieces of [s.split(sep)]
    with [sep] gives [s] back, there is one piece more than there are
    separators in [s], and no piece contains the separator. *)
Theorem X4_split_join_round_trip :
  forall (sep : ascii) (s : string),
    str_join sep (str_split sep s) = s
    /\ List.length (str_split sep s) = S (str_count sep s)
    /\ Forall (fun piece => str_count sep piece = 0%nat) (str_split sep s).
Proof.
  intros sep s. split; [|split].
  - apply str_join_split.
  - apply str_split_length.
  - apply str_split_pieces.
Qed.

End StringFacts.

(** ** Runs of [generate], call by call *)

Section RunFacts.

Context {F : Type} `{PyFloat F}.
Variables Bundle PrettyMIDI : Type.
Variable W : World (F:=F) Bundle PrettyMIDI.

Abbreviation log_of := (list (event (F:=F))).

Ltac cases_of Hrun :=
  repeat match type of Hrun with
         | context [match ?c with _ => _ end] =>
             let E := fresh "E" in destruct c eqn:E
         end.

Ltac same_log := rewrite <- ?app_assoc; cbn [app]; reflexivity.

Lemma acquire_success bundle_name sequence_generator generator_id primer_filename
      (log log1 : log_of) generator primer_sequence :
  acquire W bundle_name sequence_generator generator_id primer_filename log
  = (inr (generator, primer_sequence), log1) ->
  log1 = log ++ acquisition_events bundle_name generator_id primer_filename.
Proof.
  unfold acquire, acquisition_events, primer_load_events,
         io_bind, call, lift, io_ret.
  intros Hrun.
  destruct (truthy primer_filename);
    cases_of Hrun; try discriminate Hrun; inversion Hrun; subst; same_log.
Qed.

Lemma print_windows_log (p : PrimerWindow F) (g : GenerationWindow F) (log : log_of) :
  print_windows W p g log = (inr tt, log ++ window_lines W p g).
Proof.
  unfold print_windows, window_lines, print, io_bind, call. cbn.
  f_equal. same_log.
Qed.

Lemma persist_success generator generator_id show_plot sequence (log log' : log_of) :
  persist W generator generator_id show_plot sequence log = (inr tt, log') ->
  exists name,
    generator_name_of generator = inr name
    /\ let first_time := strftime W "%Y-%m-%d_%H%M%S" log in
       let second_time :=
         strftime W "%Y-%m-%d_%H%M%S"
                  (log ++ midi_events W name generator_id sequence first_time) in
       log' = log ++ persistence_events W name generator_id show_plot sequence
                                        first_time second_time.
Proof.
  unfold persist, persistence_events, midi_events, midi_path, plot_path,
         time_strftime, print, io_bind, call, lift, io_ret.
  intros Hrun.
  destruct show_plot; cases_of Hrun; try discriminate Hrun;
    inversion Hrun; subst;
    repeat match goal with
           | E : ret _ = inr _ |- _ => injection E as <-
           end;
    (eexists; split; [reflexivity | cbn zeta; same_log]).
Qed.

(** [generate_from] once the window is known: the request is built,
    the generation service called once, then the persistence, each
    stopping the run when it raises. *)
Lemma generate_from_window generator primer_sequence qpm generator_id
      total_length_steps temperature beam_size branch_factor
      steps_per_iteration show_plot (log : log_of) p g :
  window qpm (getattr_steps_per_quarter generator)
         (total_time primer_sequence) total_length_steps = inr (p, g) ->
  generate_from W generator primer_sequence qpm generator_id total_length_steps
                temperature beam_size branch_factor steps_per_iteration
                show_plot log
  = match build_options temperature beam_size branch_factor
                        steps_per_iteration g with
    | inl e => (inl e, log ++ window_lines W p g)
    | inr options =>
        let outcome := generate_method generator primer_sequence options in
        let log2 := log ++ window_lines W p g
                        ++ [ev_generate primer_sequence options outcome] in
        match outcome with
        | inl e => (inl e, log2)
        | inr sequence =>
            match persist W generator generator_id show_plot sequence log2 with
            | (inl e, log3) => (inl e, log3)
            | (inr _, log3) => (inr sequence, log3)
            end
        end
    end.
Proof.
  intros Hwin. unfold generate_from. unfold io_bind at 1. unfold lift at 1.
  rewrite Hwin. cbn [fst snd]. unfold io_bind at 1.
  rewrite print_windows_log. unfold io_bind at 1. unfold lift at 1.
  destruct (build_options temperature beam_size branch_factor
                          steps_per_iteration g) as [e|options]; [reflexivity|].
  unfold io_bind at 1. unfold call at 1.
  cbn zeta. rewrite <- app_assoc.
  destruct (generate_method generator primer_sequence options) as [e|sequence];
    [reflexivity|].
  unfold io_bind at 1.
  destruct (persist W generator generator_id show_plot sequence _)
    as [[e|[]] log3]; reflexivity.
Qed.

(** A window that cannot be computed stops the run before anything is
    printed or requested. *)
Lemma generate_from_no_window generator primer_sequence qpm generator_id
      total_length_steps temperature beam_size branch_factor
      steps_per_iteration show_plot (log : log_of) e :
  window qpm (getattr_steps_per_quarter generator)
         (total_time primer_sequence) total_length_steps = inl e ->
  generate_from W generator primer_sequence qpm generator_id total_length_steps
                temperature beam_size branch_factor steps_per_iteration
                show_plot log
  = (inl e, log).
Proof.
  intros Hwin. unfold generate_from. unfold io_bind at 1. unfold lift at 1.
  rewrite Hwin. reflexivity.
Qed.

(** Everything a successful run went through, with each value tied to
    the call that produced it. *)
Lemma generate_success_inv bundle_name sequence_generator generator_id
      primer_filename qpm total_length_steps temperature beam_size
      branch_factor steps_per_iteration show_plot (log log' : log_of) sequence :
  generate W bundle_name sequence_generator generator_id primer_filename qpm
           total_length_steps temperature beam_size branch_factor
           steps_per_iteration show_plot log
  = (inr sequence, log') ->
  exists generator primer_sequence primer_qpm p g options name,
    acquire W bundle_name sequence_generator generator_id primer_filename log
    = (inr (generator, primer_sequence),
       log ++ acquisition_events bundle_name generator_id primer_filename)
    /\ resolve_qpm primer_sequence qpm = inr primer_qpm
    /\ window primer_qpm (getattr_steps_per_quarter generator)
              (total_time primer_sequence) total_length_steps = inr (p, g)
    /\ build_options temperature beam_size branch_factor steps_per_iteration g
       = inr options
    /\ generate_method generator primer_sequence options = inr sequence
    /\ generator_name_of generator = inr name
    /\ let log2 :=
         log ++ acquisition_events bundle_name generator_id primer_filename
             ++ window_lines W p g
             ++ [ev_generate primer_sequence options (inr sequence)] in
       let first_time := strftime W "%Y-%m-%d_%H%M%S" log2 in
       let second_time :=
         strftime W "%Y-%m-%d_%H%M%S"
                  (log2 ++ midi_events W name generator_id sequence first_time) in
       log' = log2 ++ persistence_events W name generator_id show_plot sequence
                                         first_time second_time.
Proof.
  intros Hrun.
  destruct (acquire W bundle_name sequence_generator generator_id
                    primer_filename log) as [[e|[g ps]] log1] eqn:Hacq.
  - unfold generate, io_bind in Hrun. rewrite Hacq in Hrun. discriminate.
  - erewrite generate_phases in Hrun by exact Hacq.
    pose proof (acquire_success _ _ _ _ _ Hacq) as Hlog1. subst log1.
    destruct (resolve_qpm ps qpm) as [e|q] eqn:Hq; [discriminate|].
    destruct (window q (getattr_steps_per_quarter g) (total_time ps)
                     total_length_steps) as [e|[p w]] eqn:Hwin.
    + erewrite generate_from_no_window in Hrun by exact Hwin.
      discriminate.
    + erewrite generate_from_window in Hrun by exact Hwin.
      destruct (build_options temperature beam_size branch_factor
                              steps_per_iteration w) as [e|options] eqn:Hopt;
        [discriminate|].
      cbn zeta in Hrun.
      destruct (generate_method g ps options) as [e|sequence'] eqn:Hgen;
        [discriminate|].
      destruct (persist W g generator_id show_plot sequence' _)
        as [[e|[]] log3] eqn:Hper; [discriminate|].
      injection Hrun as <- <-.
      apply persist_success in Hper.
      destruct Hper as (name & Hname & Hlog3). cbn zeta in Hlog3.
      exists g, ps, q, p, w, options, name. cbn zeta.
      repeat (split; [first [reflexivity | assumption]|]).
      rewrite <- !app_assoc in Hlog3. rewrite <- !app_assoc. exact Hlog3.
Qed.

(** X1. The calls of a successful run, in order: bundle download and
    read, generator map, construction and initialisation, the primer
    load when a file name was given, the two printed lines, one call of
    the generation service with the request built from the window, then
    clock, MIDI write and its line, clock again, plot conversion,
    [Plotter()], show or save as [show_plot] selects, and the last
    line.  The generator is the one the acquisition constructed; the
    MIDI file name carries the time the clock gave right after the
    generation, the plot file name the time it gave once the MIDI file
    was written and announced, and both carry the third dotted
    component of the generator's class and the generator id. *)
Theorem X1_successful_run_trace :
  forall bundle_name sequence_generator generator_id primer_filename qpm
         total_length_steps temperature beam_size branch_factor
         steps_per_iteration show_plot (log log' : log_of) sequence,
    generate W bundle_name sequence_generator generator_id primer_filename qpm
             total_length_steps temperature beam_size branch_factor
             steps_per_iteration show_plot log
    = (inr sequence, log') ->
    exists generator primer_sequence primer_qpm p g options name,
      acquire W bundle_name sequence_generator generator_id primer_filename log
      = (inr (generator, primer_sequence),
         log ++ acquisition_events bundle_name generator_id primer_filename)
      /\ resolve_qpm primer_sequence qpm = inr primer_qpm
      /\ window primer_qpm (getattr_steps_per_quarter generator)
                (total_time primer_sequence) total_length_steps = inr (p, g)
      /\ build_options temperature beam_size branch_factor steps_per_iteration g
         = inr options
      /\ generate_method generator primer_sequence options = inr sequence
      /\ generator_name_of generator = inr name
      /\ let log2 :=
           log ++ acquisition_events bundle_name generator_id primer_filename
               ++ window_lines W p g
               ++ [ev_generate primer_sequence options (inr sequence)] in
         let first_time := strftime W "%Y-%m-%d_%H%M%S" log2 in
         let second_time :=
           strftime W "%Y-%m-%d_%H%M%S"
                    (log2 ++ midi_events W name generator_id sequence
                                         first_time) in
         log' = log2 ++ persistence_events W name generator_id show_plot
                                           sequence first_time second_time.
Proof.
  intros bn sg gid pf qpm total temp bs bf spi show log log' sequence Hrun.
  apply generate_success_inv. exact Hrun.
Qed.

(** X2. When the generation service raises, the run ends with that very
    exception right after the call: no clock read, no file written, no
    plot. *)
Theorem X2_generation_failure_stops_the_run :
  forall bundle_name sequence_generator generator_id primer_filename qpm
         total_length_steps temperature beam_size branch_factor
         steps_per_iteration show_plot (log log1 : log_of)
         generator primer_sequence primer_qpm p g options e,
    acquire W bundle_name sequence_generator generator_id primer_filename log
    = (inr (generator, primer_sequence), log1) ->
    resolve_qpm primer_sequence qpm = inr primer_qpm ->
    window primer_qpm (getattr_steps_per_quarter generator)
           (total_time primer_sequence) total_length_steps = inr (p, g) ->
    build_options temperature beam_size branch_factor steps_per_iteration g
    = inr options ->
    generate_method generator primer_sequence options = inl e ->
    generate W bundle_name sequence_generator generator_id primer_filename qpm
             total_length_steps temperature beam_size branch_factor
             steps_per_iteration show_plot log
    = (inl e,
       log ++ acquisition_events bundle_name generator_id primer_filename
           ++ window_lines W p g
           ++ [ev_generate primer_sequence options (inl e)]).
Proof.
  intros bn sg gid pf qpm total temp bs bf spi show log log1 g ps q p w
         options e Hacq Hq Hwin Hopt Hgen.
  erewrite generate_phases by exact Hacq. rewrite Hq.
  erewrite generate_from_window by exact Hwin. rewrite Hopt. cbn zeta.
  rewrite Hgen. apply acquire_success in Hacq. subst log1.
  rewrite <- !app_assoc. reflexivity.
Qed.

(** X3. When the MIDI writer raises, the persistence stops with that
    exception: the clock was read once and the write attempted, and
    neither the plot conversion nor the plotter is reached. *)
Theorem X3_midi_failure_skips_the_plot :
  forall generator generator_id show_plot sequence (log : log_of) name e,
    generator_name_of generator = inr name ->
    note_sequence_to_midi_file W sequence
      (midi_path name generator_id (strftime W "%Y-%m-%d_%H%M%S" log))
    = inl e ->
    persist W generator generator_id show_plot sequence log
    = (inl e,
       log ++ [ ev_strftime "%Y-%m-%d_%H%M%S";
                ev_note_sequence_to_midi_file sequence
                  (midi_path name generator_id
                             (strftime W "%Y-%m-%d_%H%M%S" log)) ]).
Proof.
  intros g gid show sequence log name e Hname Hmidi.
  unfold persist, time_strftime, io_bind, lift, call. cbn.
  rewrite Hname. unfold midi_path in Hmidi. rewrite Hmidi.
  rewrite <- app_assoc. reflexivity.
Qed.

Lemma generator_name_index_error (generator : Generator (F:=F)) :
  (str_count "." (generator_class generator) < 2)%nat ->
  generator_name_of generator = inl IndexError.
Proof.
  intros Hc. unfold generator_name_of.
  pose proof (str_split_length "." (generator_class generator)) as Hlen.
  assert (En : nth_error (str_split "." (generator_class generator)) 2 = None)
    by (apply nth_error_None; lia).
  rewrite En. reflexivity.
Qed.

(** X5. The generator name used in both file names is the third
    dot-separated component of the printed class: taking it raises
    [IndexError] exactly when the printed class has fewer than two
    dots, a name that is obtained never contains a dot, and for a
    class printed as [a.b.c] or [a.b.c.rest] with dot-free [a], [b],
    [c] the name is [c]. *)
Theorem X5_generator_name :
  forall generator : Generator (F:=F),
    (generator_name_of generator = inl IndexError
     <-> (str_count "." (generator_class generator) < 2)%nat)
    /\ (forall name, generator_name_of generator = inr name ->
                     str_count "." name = 0%nat)
    /\ (forall a b c : string,
           str_count "." a = 0%nat -> str_count "." b = 0%nat ->
           str_count "." c = 0%nat ->
           (generator_class generator = a ++ "." ++ b ++ "." ++ c
            \/ exists rest,
                generator_class generator = a ++ "." ++ b ++ "." ++ c ++ "." ++ rest)
           -> generator_name_of generator = inr c)%string.
Proof.
  intros g. unfold generator_name_of.
  pose proof (str_split_length "." (generator_class g)) as Hlen.
  pose proof (str_split_pieces "." (generator_class g)) as Hpieces.
  split; [|split].
  - split.
    + destruct (nth_error _ 2) eqn:En; [discriminate|]. intros _.
      apply nth_error_None in En. lia.
    + apply generator_name_index_error.
  - intros name. destruct (nth_error _ 2) eqn:En; [|discriminate].
    intros Hn. injection Hn as <-.
    apply nth_error_In in En. rewrite Forall_forall in Hpieces.
    apply Hpieces. exact En.
  - intros a b c Ha Hb Hc [Hcls|[rest Hcls]]; rewrite Hcls.
    + change (a ++ "." ++ b ++ "." ++ c)%string
        with (a ++ String "." (b ++ String "." c))%string.
      rewrite !str_split_prefix by assumption.
      rewrite str_split_plain by assumption. reflexivity.
    + change (a ++ "." ++ b ++ "." ++ c ++ "." ++ rest)%string
        with (a ++ String "." (b ++ String "." (c ++ String "." rest)))%string.
      rewrite !str_split_prefix by assumption.
      reflexivity.
Qed.

Lemma persist_no_name generator generator_id show_plot sequence (log : log_of) e :
  generator_name_of generator = inl e ->
  persist W generator generator_id show_plot sequence log
  = (inl e, log ++ [ev_strftime "%Y-%m-%d_%H%M%S"]).
Proof.
  intros Hname. unfold persist, time_strftime, io_bind, lift. cbn.
  rewrite Hname. reflexivity.
Qed.

(** X6. A generator whose printed class has fewer than two dots makes
    the run fail with [IndexError] after the generation service has
    answered: the answer is dropped, the clock was read once, and
    nothing was written or plotted. *)
Theorem X6_short_class_name_loses_the_sequence :
  forall generator primer_sequence qpm generator_id total_length_steps
         temperature beam_size branch_factor steps_per_iteration show_plot
         (log : log_of) p g options sequence,
    window qpm (getattr_steps_per_quarter generator)
           (total_time primer_sequence) total_length_steps = inr (p, g) ->
    build_options temperature beam_size branch_factor steps_per_iteration g
    = inr options ->
    generate_method generator primer_sequence options = inr sequence ->
    (str_count "." (generator_class generator) < 2)%nat ->
    generate_from W generator primer_sequence qpm generator_id
                  total_length_steps temperature beam_size branch_factor
                  steps_per_iteration show_plot log
    = (inl IndexError,
       log ++ window_lines W p g
           ++ [ ev_generate primer_sequence options (inr sequence);
                ev_strftime "%Y-%m-%d_%H%M%S" ]).
Proof.
  intros g ps q gid total temp bs bf spi show log p w options sequence
         Hwin Hopt Hgen Hc.
  erewrite generate_from_window by exact Hwin. rewrite Hopt. cbn zeta.
  rewrite Hgen.
  apply generator_name_index_error in Hc.
  erewrite persist_no_name by exact Hc.
  rewrite <- !app_assoc. reflexivity.
Qed.

Lemma quiet_filter (evs : log_of) :
  forallb is_quiet evs = true -> filter (is_generate (F:=F)) evs = [].
Proof.
  induction evs as [|e rest IH]; cbn; [reflexivity|].
  intros Hq. apply andb_prop in Hq. destruct Hq as [He Hrest].
  destruct e; cbn in *; try discriminate He; apply IH; exact Hrest.
Qed.

Lemma quiet_not_written (evs : log_of) e s :
  forallb is_quiet evs = true -> In e evs -> written_sequence e = Some s -> False.
Proof.
  intros Hq Hin Hw. rewrite forallb_forall in Hq. specialize (Hq e Hin).
  destruct e; cbn in *; discriminate.
Qed.

Lemma acquire_quiet bundle_name sequence_generator generator_id primer_filename
      (log log' : log_of) r :
  acquire W bundle_name sequence_generator generator_id primer_filename log
  = (r, log') ->
  exists evs, log' = log ++ evs /\ forallb is_quiet evs = true.
Proof.
  unfold acquire, io_bind, call, lift, io_ret. intros Hrun.
  destruct (truthy primer_filename);
    cases_of Hrun; injection Hrun as <- <-;
    (eexists; split; [same_log | reflexivity]).
Qed.

Lemma persist_writes generator generator_id show_plot sequence
      (log log' : log_of) r :
  persist W generator generator_id show_plot sequence log = (r, log') ->
  exists evs,
    log' = log ++ evs
    /\ filter (is_generate (F:=F)) evs = []
    /\ forall e s, In e evs -> written_sequence e = Some s -> s = sequence.
Proof.
  unfold persist, time_strftime, print, io_bind, call, lift, io_ret.
  intros Hrun.
  destruct show_plot; cases_of Hrun; injection Hrun as <- <-;
    (eexists; split; [same_log|]; split; [reflexivity|];
     intros ev sq Hin Hw; cbn [In] in Hin;
     repeat (destruct Hin as [Hin|Hin];
             [subst ev; cbn in Hw;
              first [discriminate Hw | injection Hw as <-; reflexivity]|]);
     contradiction).
Qed.

(** X7. In every run, failed or not, calls are only added to the log,
    the generation service is called at most once, and a sequence is
    handed to the MIDI writer or to the plot conversion only if it is
    the answer of that call. *)
Theorem X7_one_generation_and_only_its_answer_is_written :
  forall bundle_name sequence_generator generator_id primer_filename qpm
         total_length_steps temperature beam_size branch_factor
         steps_per_iteration show_plot (log log' : log_of) r,
    generate W bundle_name sequence_generator generator_id primer_filename qpm
             total_length_steps temperature beam_size branch_factor
             steps_per_iteration show_plot log
    = (r, log') ->
    exists evs,
      log' = log ++ evs
      /\ (List.length (filter (is_generate (F:=F)) evs) <= 1)%nat
      /\ forall e s,
           In e evs -> written_sequence e = Some s ->
           exists primer_sequence options,
             In (ev_generate primer_sequence options (inr s)) evs.
Proof.
  intros bn sg gid pf qpm total temp bs bf spi show log log' r Hrun.
  destruct (acquire W bn sg gid pf log) as [[e|[g ps]] log1] eqn:Hacq.
  - unfold generate, io_bind in Hrun. rewrite Hacq in Hrun.
    injection Hrun as <- <-.
    apply acquire_quiet in Hacq. destruct Hacq as (evs & -> & Hq).
    exists evs. split; [reflexivity|]. split.
    + rewrite (quiet_filter _ Hq). cbn. lia.
    + intros e0 s Hin Hw. destruct (quiet_not_written _ _ Hq Hin Hw).
  - erewrite generate_phases in Hrun by exact Hacq.
    apply acquire_quiet in Hacq. destruct Hacq as (evs & -> & Hq).
    assert (Hstop : forall e0, (r, log') = (inl e0, log ++ evs) ->
              exists evs0,
                log' = log ++ evs0
                /\ (List.length (filter (is_generate (F:=F)) evs0) <= 1)%nat
                /\ forall e s,
                     In e evs0 -> written_sequence e = Some s ->
                     exists primer_sequence options,
                       In (ev_generate primer_sequence options (inr s)) evs0).
    { intros e0 Hr. injection Hr as -> ->.
      exists evs. split; [reflexivity|]. split.
      - rewrite (quiet_filter _ Hq). cbn. lia.
      - intros e1 s Hin Hw. destruct (quiet_not_written _ _ Hq Hin Hw). }
    destruct (resolve_qpm ps qpm) as [e|q]; [apply (Hstop e); now symmetry|].
    destruct (window q (getattr_steps_per_quarter g) (total_time ps) total)
      as [e|[p w]] eqn:Hwin.
    + erewrite generate_from_no_window in Hrun by exact Hwin.
      apply (Hstop e). now symmetry.
    + erewrite generate_from_window in Hrun by exact Hwin.
      destruct (build_options temp bs bf spi w) as [e|options] eqn:Hopt.
      { injection Hrun as <- <-.
        eexists. split; [rewrite <- !app_assoc; reflexivity|]. split.
        - rewrite !filter_app, (quiet_filter _ Hq). cbn. lia.
        - intros e0 s Hin Hw. exfalso.
          apply in_app_or in Hin. destruct Hin as [Hin|Hin];
            [exact (quiet_not_written _ _ Hq Hin Hw)|].
          cbn in Hin.
          repeat (destruct Hin as [Hin|Hin]; [subst e0; discriminate Hw|]).
          exact Hin. }
      cbn zeta in Hrun.
      destruct (generate_method g ps options) as [e|sequence] eqn:Hgen.
      * injection Hrun as <- <-.
        eexists. split; [rewrite <- !app_assoc; reflexivity|]. split.
        -- rewrite !filter_app, (quiet_filter _ Hq). cbn. lia.
        -- intros e0 s Hin Hw. exfalso.
           apply in_app_or in Hin. destruct Hin as [Hin|Hin];
             [exact (quiet_not_written _ _ Hq Hin Hw)|].
           cbn in Hin.
           repeat (destruct Hin as [Hin|Hin]; [subst e0; discriminate Hw|]).
           exact Hin.
      * destruct (persist W g gid show sequence _) as [r3 log3] eqn:Hper.
        apply persist_writes in Hper.
        destruct Hper as (post & -> & Hnone & Hwritten).
        assert (Hlog : log' = log ++ evs ++ window_lines W p w
                            ++ [ev_generate ps options (inr sequence)] ++ post).
        { destruct r3 as [e|[]]; injection Hrun as _ <-;
            rewrite <- !app_assoc; reflexivity. }
        eexists. split; [exact Hlog|]. split.
        -- rewrite !filter_app, (quiet_filter _ Hq), Hnone. cbn. lia.
        -- intros e0 s Hin Hw.
           exists ps, options.
           assert (Hs : s = sequence).
           { apply in_app_or in Hin. destruct Hin as [Hin|Hin];
               [destruct (quiet_not_written _ _ Hq Hin Hw)|].
             apply in_app_or in Hin. destruct Hin as [Hin|Hin].
             - cbn in Hin.
               repeat (destruct Hin as [Hin|Hin]; [subst e0; discriminate Hw|]).
               contradiction.
             - destruct Hin as [Hin|Hin]; [subst e0; discriminate Hw|].
               exact (Hwritten _ _ Hin Hw). }
           subst s. apply in_or_app. right. apply in_or_app. right.
           left. reflexivity.
Qed.

Lemma dict_getitem_missing (m : GeneratorMap (F:=F) Bundle) (key : string) :
  (forall v, ~ In (key, v) m) -> dict_getitem m key = inl (KeyError key).
Proof.
  induction m as [|[k v] rest IH]; cbn; [reflexivity|].
  intros Hnone. destruct (String.eqb_spec k key) as [->|Hneq].
  - destruct (Hnone v). left. reflexivity.
  - apply IH. intros v' Hin. apply (Hnone v'). right. exact Hin.
Qed.

(** X8. A generator id that is not a key of the generator map makes the
    call fail with [KeyError] carrying that id, after the bundle was
    downloaded and read and the map obtained, and before any generator
    is constructed. *)
Theorem X8_unknown_generator_id :
  forall bundle_name (sequence_generator : GeneratorMap (F:=F) Bundle)
         generator_id primer_filename qpm total_length_steps temperature
         beam_size branch_factor steps_per_iteration show_plot (log : log_of)
         bundle,
    download_bundle W bundle_name "bundles" = inr tt ->
    read_bundle_file W (os_path_join "bundles" bundle_name) = inr bundle ->
    (forall constructor, ~ In (generator_id, constructor) sequence_generator) ->
    generate W bundle_name sequence_generator generator_id primer_filename qpm
             total_length_steps temperature beam_size branch_factor
             steps_per_iteration show_plot log
    = (inl (KeyError generator_id),
       log ++ [ ev_download_bundle bundle_name "bundles";
                ev_read_bundle_file (os_path_join "bundles" bundle_name);
                ev_get_generator_map ]).
Proof.
  intros bn sg gid pf qpm total temp bs bf spi show log bundle Hdl Hrd Hnone.
  unfold generate, acquire, io_bind, call, lift. cbn.
  rewrite Hdl, Hrd, (dict_getitem_missing _ _ Hnone).
  rewrite <- !app_assoc. reflexivity.
Qed.

Lemma truthy_none (primer_filename : option string) :
  primer_filename = None \/ primer_filename = Some ""%string ->
  truthy primer_filename = None.
Proof. intros [->| ->]; reflexivity. Qed.

(** X9. Without a primer file name ([None] or the empty string) no file
    is read: the primer is the empty sequence with total time 0.0, the
    acquisition makes its five calls and no other, and the run
    continues with the caller's qpm. *)
Theorem X9_no_primer_filename :
  forall bundle_name sequence_generator generator_id primer_filename qpm
         total_length_steps temperature beam_size branch_factor
         steps_per_iteration show_plot (log log1 : log_of)
         generator primer_sequence,
    primer_filename = None \/ primer_filename = Some ""%string ->
    acquire W bundle_name sequence_generator generator_id primer_filename log
    = (inr (generator, primer_sequence), log1) ->
    primer_sequence = {| tempos := []; total_time := lit_0_0 |}
    /\ log1 = log ++ [ ev_download_bundle bundle_name "bundles";
                       ev_read_bundle_file (os_path_join "bundles" bundle_name);
                       ev_get_generator_map;
                       ev_construct_generator generator_id;
                       ev_initialize ]
    /\ generate W bundle_name sequence_generator generator_id primer_filename
                qpm total_length_steps temperature beam_size branch_factor
                steps_per_iteration show_plot log
       = generate_from W generator primer_sequence qpm generator_id
                       total_length_steps temperature beam_size branch_factor
                       steps_per_iteration show_plot log1.
Proof.
  intros bn sg gid pf qpm total temp bs bf spi show log log1 g ps Hpf Hacq.
  assert (Hps : ps = {| tempos := []; total_time := lit_0_0 |}).
  { revert Hacq. unfold acquire, io_bind, call, lift, io_ret.
    rewrite (truthy_none Hpf). intros Hrun.
    cases_of Hrun; try discriminate Hrun. inversion Hrun; subst.
    match goal with E : ret _ = inr _ |- _ => injection E as <- end.
    reflexivity. }
  split; [exact Hps|]. split.
  - rewrite (acquire_success _ _ _ _ _ Hacq).
    unfold acquisition_events, primer_load_events.
    rewrite (truthy_none Hpf), app_nil_r. reflexivity.
  - erewrite generate_phases by exact Hacq. rewrite Hps. reflexivity.
Qed.

(** X10. When the primer declares exactly one tempo the qpm passed by
    the caller has no influence at all: two calls that differ only in
    that argument return the same result and make the same calls. *)
Theorem X10_caller_qpm_ignored_with_one_tempo :
  forall bundle_name sequence_generator generator_id primer_filename
         total_length_steps temperature beam_size branch_factor
         steps_per_iteration show_plot (log log1 : log_of)
         generator primer_sequence tempo,
    acquire W bundle_name sequence_generator generator_id primer_filename log
    = (inr (generator, primer_sequence), log1) ->
    tempos primer_sequence = [tempo] ->
    forall qpm other_qpm : F,
      generate W bundle_name sequence_generator generator_id primer_filename
               qpm total_length_steps temperature beam_size branch_factor
               steps_per_iteration show_plot log
      = generate W bundle_name sequence_generator generator_id primer_filename
                 other_qpm total_length_steps temperature beam_size
                 branch_factor steps_per_iteration show_plot log.
Proof.
  intros bn sg gid pf total temp bs bf spi show log log1 g ps tempo
         Hacq Hone qpm other.
  erewrite !generate_phases by exact Hacq.
  unfold resolve_qpm. rewrite Hone. reflexivity.
Qed.

Lemma primers_path (name : string) :
  os_path_join "primers" name
  = if starts_with_slash name then name else ("primers/" ++ name)%string.
Proof.
  unfold os_path_join. destruct (starts_with_slash name); reflexivity.
Qed.

(** X11. A non-empty primer file name is looked up under [primers/],
    except that a name starting with [/] is used as it is: the primer
    of the run is whatever the MIDI reader answers for that path. *)
Theorem X11_primer_path :
  forall bundle_name sequence_generator generator_id (name : string)
         (log log1 : log_of) generator primer_sequence,
    name <> ""%string ->
    acquire W bundle_name sequence_generator generator_id (Some name) log
    = (inr (generator, primer_sequence), log1) ->
    let path :=
      if starts_with_slash name then name else ("primers/" ++ name)%string in
    midi_file_to_note_sequence W path = inr primer_sequence
    /\ log1 = log ++ [ ev_download_bundle bundle_name "bundles";
                       ev_read_bundle_file (os_path_join "bundles" bundle_name);
                       ev_get_generator_map;
                       ev_construct_generator generator_id;
                       ev_initialize;
                       ev_midi_file_to_note_sequence path ].
Proof.
  intros bn sg gid name log log1 g ps Hname Hacq. cbn zeta.
  assert (Htr : truthy (Some name) = Some name)
    by (destruct name; [contradiction|reflexivity]).
  rewrite <- primers_path. split.
  - revert Hacq. unfold acquire, io_bind, call, lift, io_ret.
    rewrite Htr. intros Hrun.
    cases_of Hrun; try discriminate Hrun. inversion Hrun; subst. reflexivity.
  - rewrite (acquire_success _ _ _ _ _ Hacq).
    unfold acquisition_events, primer_load_events. rewrite Htr. reflexivity.
Qed.

(** X17. Whatever exception the window computation raises
    ([ZeroDivisionError], [OverflowError], [ValueError] or the length
    exception), the run ends with it before anything is printed and
    before the generation service is called: the calls made are those
    of the acquisition and no other. *)
Theorem X17_window_exception_stops_the_run :
  forall bundle_name sequence_generator generator_id primer_filename qpm
         total_length_steps temperature beam_size branch_factor
         steps_per_iteration show_plot (log log1 : log_of)
         generator primer_sequence primer_qpm e,
    acquire W bundle_name sequence_generator generator_id primer_filename log
    = (inr (generator, primer_sequence), log1) ->
    resolve_qpm primer_sequence qpm = inr primer_qpm ->
    window primer_qpm (getattr_steps_per_quarter generator)
           (total_time primer_sequence) total_length_steps = inl e ->
    generate W bundle_name sequence_generator generator_id primer_filename qpm
             total_length_steps temperature beam_size branch_factor
             steps_per_iteration show_plot log
    = (inl e,
       log ++ acquisition_events bundle_name generator_id primer_filename).
Proof.
  intros bn sg gid pf qpm total temp bs bf spi show log log1 g ps q e
         Hacq Hq Hwin.
  erewrite generate_phases by exact Hacq. rewrite Hq.
  erewrite generate_from_no_window by exact Hwin.
  apply acquire_success in Hacq. subst log1. reflexivity.
Qed.

Lemma in_int32_set (n : Z) : in_int32 n = true -> set_int_value n = inr (int_value (F:=F) n).
Proof. intros Hn. unfold set_int_value. rewrite Hn. reflexivity. Qed.

Lemma build_options_out_of_range temperature beam_size branch_factor
      steps_per_iteration (g : GenerationWindow F) :
  in_int32 beam_size && in_int32 branch_factor && in_int32 steps_per_iteration
  = false ->
  build_options temperature beam_size branch_factor steps_per_iteration g
  = inl ValueError.
Proof.
  unfold build_options, set_int_value.
  destruct (in_int32 beam_size); [|reflexivity].
  destruct (in_int32 branch_factor); [|reflexivity].
  destruct (in_int32 steps_per_iteration); [discriminate|reflexivity].
Qed.

(** X18. The three integer arguments go into [int32] fields: when
    each of beam_size, branch_factor and steps_per_iteration lies in
    [-2^31, 2^31 - 1] the request carries them as given, with the
    temperature and the one section from gen_start to gen_end; when
    one of them does not, the run fails with [ValueError] after the
    two printed lines and before the generation service is called. *)
Theorem X18_integer_arguments_are_int32 :
  forall temperature beam_size branch_factor steps_per_iteration
         (g : GenerationWindow F),
    (in_int32 beam_size && in_int32 branch_factor
     && in_int32 steps_per_iteration = true ->
     build_options temperature beam_size branch_factor steps_per_iteration g
     = inr {| args := [ ("temperature"%string, float_value temperature);
                        ("beam_size"%string, int_value beam_size);
                        ("branch_factor"%string, int_value branch_factor);
                        ("steps_per_iteration"%string,
                         int_value steps_per_iteration) ];
              generate_sections :=
                [ {| start_time := generation_start_time g;
                     end_time := generation_end_time g |} ] |})
    /\ (in_int32 beam_size && in_int32 branch_factor
        && in_int32 steps_per_iteration = false ->
        forall bundle_name sequence_generator generator_id primer_filename qpm
               total_length_steps show_plot (log log1 : log_of)
               generator primer_sequence primer_qpm p,
          acquire W bundle_name sequence_generator generator_id
                  primer_filename log
          = (inr (generator, primer_sequence), log1) ->
          resolve_qpm primer_sequence qpm = inr primer_qpm ->
          window primer_qpm (getattr_steps_per_quarter generator)
                 (total_time primer_sequence) total_length_steps = inr (p, g) ->
          generate W bundle_name sequence_generator generator_id
                   primer_filename qpm total_length_steps temperature
                   beam_size branch_factor steps_per_iteration show_plot log
          = (inl ValueError,
             log ++ acquisition_events bundle_name generator_id primer_filename
                 ++ window_lines W p g)).
Proof.
  intros temp bs bf spi w. split.
  - intros Hin. apply andb_prop in Hin. destruct Hin as [Hin Hspi].
    apply andb_prop in Hin. destruct Hin as [Hbs Hbf].
    unfold build_options.
    rewrite (in_int32_set _ Hbs), (in_int32_set _ Hbf), (in_int32_set _ Hspi).
    reflexivity.
  - intros Hout bn sg gid pf qpm total show log log1 g ps q p Hacq Hq Hwin.
    erewrite generate_phases by exact Hacq. rewrite Hq.
    erewrite generate_from_window by exact Hwin.
    rewrite (build_options_out_of_range _ _ _ _ _ Hout).
    apply acquire_success in Hacq. subst log1.
    rewrite <- !app_assoc. reflexivity.
Qed.

End RunFacts.

(** ** What a run returns *)

(** The acquisition asks the world for the bundle and the primer only. *)
Lemma acquire_agree {F : Type} `{PyFloat F} (Bundle PrettyMIDI : Type)
      (W W' : World (F:=F) Bundle PrettyMIDI)
      bundle_name sequence_generator generator_id primer_filename
      (log : list (event (F:=F))) :
  (forall name dir, download_bundle W' name dir = download_bundle W name dir) ->
  (forall path, read_bundle_file W' path = read_bundle_file W path) ->
  (forall path, midi_file_to_note_sequence W' path
                = midi_file_to_note_sequence W path) ->
  acquire W' bundle_name sequence_generator generator_id primer_filename log
  = acquire W bundle_name sequence_generator generator_id primer_filename log.
Proof.
  intros Hd Hr Hm. unfold acquire, io_bind, call, lift, io_ret.
  rewrite Hd, Hr.
  destruct (truthy primer_filename) as [name|]; [rewrite Hm|]; reflexivity.
Qed.

(** C8. For every successful invocation the value returned is what the
    generator constructed by the acquisition answered, in its one call,
    to the primer and the request built from the window; the same
    value is what the MIDI writer and the plot conversion receive, no
    other sequence is handed to them, and the generation service is not
    called again.  The persistence has no part in the value: a run
    whose clock, writers, plotter and [show_plot] are different, but
    whose bundle and primer are the same, returns the same sequence
    whenever it succeeds. *)
Theorem C8_returns_generated_sequence :
  forall (F : Type) (HF : PyFloat F) (Bundle PrettyMIDI : Type)
         (W : World (F:=F) Bundle PrettyMIDI)
         bundle_name sequence_generator generator_id primer_filename qpm
         total_length_steps temperature beam_size branch_factor
         steps_per_iteration show_plot (log log' : list (event (F:=F)))
         sequence,
    generate W bundle_name sequence_generator generator_id primer_filename qpm
             total_length_steps temperature beam_size branch_factor
             steps_per_iteration show_plot log
    = (inr sequence, log') ->
    (exists generator primer_sequence primer_qpm p g options post,
        acquire W bundle_name sequence_generator generator_id primer_filename
                log
        = (inr (generator, primer_sequence),
           log ++ acquisition_events bundle_name generator_id primer_filename)
        /\ resolve_qpm primer_sequence qpm = inr primer_qpm
        /\ window primer_qpm (getattr_steps_per_quarter generator)
                  (total_time primer_sequence) total_length_steps = inr (p, g)
        /\ build_options temperature beam_size branch_factor
                         steps_per_iteration g = inr options
        /\ generate_method generator primer_sequence options = inr sequence
        /\ log' = log
                  ++ acquisition_events bundle_name generator_id primer_filename
                  ++ window_lines W p g
                  ++ [ev_generate primer_sequence options (inr sequence)]
                  ++ post
        /\ filter (is_generate (F:=F)) post = []
        /\ (forall e s, In e post -> written_sequence e = Some s -> s = sequence)
        /\ (exists path, In (ev_note_sequence_to_midi_file sequence path) post)
        /\ In (ev_note_sequence_to_pretty_midi sequence) post)
    /\ forall (W' : World (F:=F) Bundle PrettyMIDI) (show_plot' : bool)
              (log'' : list (event (F:=F))) (sequence' : NoteSequence),
         (forall name dir,
             download_bundle W' name dir = download_bundle W name dir) ->
         (forall path, read_bundle_file W' path = read_bundle_file W path) ->
         (forall path, midi_file_to_note_sequence W' path
                       = midi_file_to_note_sequence W path) ->
         generate W' bundle_name sequence_generator generator_id
                  primer_filename qpm total_length_steps temperature
                  beam_size branch_factor steps_per_iteration show_plot' log
         = (inr sequence', log'') ->
         sequence' = sequence.
Proof.
  intros F HF Bundle PrettyMIDI W bn sg gid pf qpm total temp bs bf spi show
         log log' sequence Hrun.
  apply generate_success_inv in Hrun.
  destruct Hrun as (g & ps & q & p & w & options & name
                    & Hacq & Hq & Hwin & Hopt & Hgen & Hname & Hlog).
  cbn zeta in Hlog. split.
  - exists g, ps, q, p, w, options. eexists.
    repeat (split; [eassumption|]).
    split; [rewrite Hlog; rewrite <- !app_assoc; reflexivity|].
    split; [destruct show; reflexivity|].
    split.
    + intros e s Hin Hw. cbn [persistence_events In] in Hin.
      repeat (destruct Hin as [Hin|Hin];
              [subst e; destruct show; cbn in Hw;
               first [discriminate Hw | injection Hw as <-; reflexivity]|]).
      contradiction.
    + split; [eexists|]; cbn [persistence_events In];
        repeat first [left; reflexivity | right].
  - intros W' show' log'' sequence' Hd Hr Hm Hrun'.
    apply generate_success_inv in Hrun'.
    destruct Hrun' as (g' & ps' & q' & p' & w' & options' & name'
                       & Hacq' & Hq' & Hwin' & Hopt' & Hgen' & _).
    rewrite (acquire_agree W W' _ _ _ _ _ Hd Hr Hm), Hacq in Hacq'.
    injection Hacq' as <- <-.
    rewrite Hq in Hq'. injection Hq' as <-.
    rewrite Hwin in Hwin'. injection Hwin' as <- <-.
    rewrite Hopt in Hopt'. injection Hopt' as <-.
    rewrite Hgen in Hgen'. injection Hgen' as <-. reflexivity.
Qed.

(** ** The window at the edges of its domain *)

Lemma window_primer_error {F : Type} `{PyFloat F} (qpm : F) (spq : Z) (t : F)
      (total : Z) (e : exn) :
  primer_window qpm spq t = inl e -> window qpm spq t total = inl e.
Proof. intros Hp. unfold window. rewrite Hp. reflexivity. Qed.

Lemma Qeq_bool_zero (x : Q) : x == 0 -> Qeq_bool x 0 = true.
Proof. intros Hx. apply Qeq_bool_iff. exact Hx. Qed.

Lemma Qeq_bool_nonzero (x : Q) : ~ x == 0 -> Qeq_bool x 0 = false.
Proof.
  intros Hx. destruct (Qeq_bool x 0) eqn:E; [|reflexivity].
  apply Qeq_bool_iff in E. contradiction.
Qed.

(** X12. A zero tempo, or zero steps per quarter, is not rejected by a
    check of its own: the window computation raises
    [ZeroDivisionError] at the division, in exact arithmetic and in
    double precision (where both signed zeros count). *)
Theorem X12_zero_tempo_or_steps_per_quarter :
  (forall (qpm : Q) (steps_per_quarter : Z) (primer_total_time : Q)
          (total_length_steps : Z),
      qpm == 0 \/ steps_per_quarter = 0%Z ->
      window qpm steps_per_quarter primer_total_time total_length_steps
      = inl ZeroDivisionError)
  /\ (forall (qpm : Binary64.float) (steps_per_quarter : Z)
             (primer_total_time : Binary64.float) (total_length_steps : Z),
         Binary64.is_zero qpm = true \/ steps_per_quarter = 0%Z ->
         window qpm steps_per_quarter primer_total_time total_length_steps
         = inl ZeroDivisionError).
Proof.
  split.
  - intros qpm spq t total Hzero. apply window_primer_error.
    unfold primer_window, seconds_per_step_of, float_div_int. cbn.
    unfold Exact.truediv.
    destruct (Qeq_bool qpm 0) eqn:Eq; [reflexivity|].
    destruct Hzero as [Hq| ->].
    + rewrite (Qeq_bool_zero Hq) in Eq. discriminate.
    + reflexivity.
  - intros qpm spq t total Hzero. apply window_primer_error.
    unfold primer_window, seconds_per_step_of, float_div_int.
    cbn [float_truediv float_of_int Binary64.b64_PyFloat].
    unfold Binary64.truediv at 1.
    destruct (Binary64.is_zero qpm) eqn:Eq; [reflexivity|].
    destruct Hzero as [Hq| ->]; [discriminate|].
    reflexivity.
Qed.

Lemma X12_witness :
  window (F:=Q) 0 4 (3 # 2) 32 = inl ZeroDivisionError
  /\ window (Binary64.decimal 120 0) 0 (Binary64.decimal 15 1) 32
     = inl ZeroDivisionError.
Proof.
  split.
  - apply (proj1 X12_zero_tempo_or_steps_per_quarter 0 4%Z (3 # 2) 32%Z).
    left. reflexivity.
  - apply (proj2 X12_zero_tempo_or_steps_per_quarter
             (Binary64.decimal 120 0) 0%Z (Binary64.decimal 15 1) 32%Z).
    right. reflexivity.
Defined.

(** X13. In double precision a tempo that is not a number makes the
    window computation raise [ValueError] (from [math.ceil]), and an
    infinite tempo makes it raise [ZeroDivisionError] (the step
    duration is zero), whatever the primer and in every case where
    steps_per_quarter converts to a non-zero finite double. *)
Theorem X13_non_finite_tempo :
  forall (steps_per_quarter : Z) (s : bool) (m : positive) (e : Z)
         (primer_total_time : Binary64.float) (total_length_steps : Z),
    Binary64.of_int steps_per_quarter = inr (S754_finite s m e) ->
    window S754_nan steps_per_quarter primer_total_time total_length_steps
    = inl ValueError
    /\ forall sign : bool,
         window (S754_infinity sign) steps_per_quarter primer_total_time
                total_length_steps
         = inl ZeroDivisionError.
Proof.
  intros spq s m e t total Hspq. split.
  - apply window_primer_error.
    unfold primer_window, seconds_per_step_of, float_div_int.
    cbn [float_truediv float_of_int math_ceil Binary64.b64_PyFloat].
    change (Binary64.truediv (Binary64.decimal 60 0) S754_nan)
      with (ret (A:=Binary64.float) S754_nan).
    cbn [bind ret]. rewrite Hspq. cbn [bind].
    change (Binary64.truediv S754_nan (S754_finite s m e))
      with (ret (A:=Binary64.float) S754_nan).
    cbn [bind ret]. unfold Binary64.truediv. cbn [Binary64.is_zero].
    destruct t; reflexivity.
  - intros sign. apply window_primer_error.
    unfold primer_window, seconds_per_step_of, float_div_int.
    cbn [float_truediv float_of_int math_ceil Binary64.b64_PyFloat].
    change (Binary64.truediv (Binary64.decimal 60 0) (S754_infinity sign))
      with (ret (A:=Binary64.float) (S754_zero sign)).
    cbn [bind ret]. rewrite Hspq. cbn [bind].
    change (Binary64.truediv (S754_zero sign) (S754_finite s m e))
      with (ret (A:=Binary64.float) (S754_zero (xorb sign s))).
    cbn [bind ret]. reflexivity.
Qed.

Lemma X13_witness :
  window S754_nan 4 (Binary64.decimal 15 1) 32 = inl ValueError
  /\ forall sign : bool,
       window (S754_infinity sign) 4 (Binary64.decimal 15 1) 32
       = inl ZeroDivisionError.
Proof.
  apply (@X13_non_finite_tempo 4 false 4503599627370496 (-50)
           (Binary64.decimal 15 1) 32).
  vm_compute. reflexivity.
Defined.

Lemma Qdiv_le_compat (t1 t2 s : Q) : 0 < s -> t1 <= t2 -> t1 / s <= t2 / s.
Proof.
  intros Hs Hle. unfold Qdiv. apply Qmult_le_compat_r; [exact Hle|].
  apply Qinv_le_0_compat. apply Qlt_le_weak. exact Hs.
Qed.

(** X14. Under exact arithmetic a longer primer never needs fewer
    steps: for qpm > 0 and steps_per_quarter > 0, primer_length_steps
    is monotone in primer_total_time, so a total_length_steps that
    passes the length check for a primer passes it for every shorter
    one, leaving at least as many steps to generate. *)
Theorem X14_primer_steps_monotone :
  forall (qpm : Q) (steps_per_quarter : Z) (shorter longer : Q),
    0 < qpm -> (0 < steps_per_quarter)%Z -> shorter <= longer ->
    exists p1 p2 : PrimerWindow Q,
      primer_window qpm steps_per_quarter shorter = inr p1
      /\ primer_window qpm steps_per_quarter longer = inr p2
      /\ (primer_sequence_length_steps p1 <= primer_sequence_length_steps p2)%Z
      /\ forall (total_length_steps : Z) (g2 : GenerationWindow Q),
           generation_window p2 total_length_steps = inr g2 ->
           exists g1 : GenerationWindow Q,
             generation_window p1 total_length_steps = inr g1
             /\ (generation_length_steps g2 <= generation_length_steps g1)%Z.
Proof.
  intros qpm spq t1 t2 Hq Hs Hle.
  pose proof (step_duration_pos Hq Hs) as Hstep.
  exists (primer_locals qpm spq t1), (primer_locals qpm spq t2).
  split; [apply primer_window_exact; assumption|].
  split; [apply primer_window_exact; assumption|].
  assert (Hsteps : (Qceiling (t1 / step_duration qpm spq)
                    <= Qceiling (t2 / step_duration qpm spq))%Z)
    by (apply Qceiling_resp_le, Qdiv_le_compat; assumption).
  split; [exact Hsteps|].
  intros total g2 Hg2. unfold generation_window in Hg2.
  cbn [primer_sequence_length_steps primer_locals primer_locals_at] in Hg2.
  destruct (Z.leb_spec (total - Qceiling (t2 / step_duration qpm spq)) 0)
    as [|Hpos]; [discriminate|].
  cbn in Hg2. injection Hg2 as <-.
  exists (generation_locals (primer_locals qpm spq t1) total). split.
  - apply generation_window_exact. cbn. lia.
  - cbn. lia.
Qed.

Lemma X14_witness :
  exists p1 p2 : PrimerWindow Q,
    primer_window 120 4 1 = inr p1
    /\ primer_window 120 4 (3 # 2) = inr p2
    /\ (primer_sequence_length_steps p1 <= primer_sequence_length_steps p2)%Z
    /\ forall (total_length_steps : Z) (g2 : GenerationWindow Q),
         generation_window p2 total_length_steps = inr g2 ->
         exists g1 : GenerationWindow Q,
           generation_window p1 total_length_steps = inr g1
           /\ (generation_length_steps g2 <= generation_length_steps g1)%Z.
Proof.
  apply (@X14_primer_steps_monotone 120 4 1 (3 # 2)).
  - reflexivity.
  - reflexivity.
  - discriminate.
Defined.

(** X15. Under exact arithmetic, for a non-empty primer on a valid
    input the generation is asked to start at most epsilon = 1/100000
    before the end of the primer and less than one step (minus
    epsilon) after it:
    primer_total_time - epsilon <= gen_start
    < primer_total_time + step_duration - epsilon. *)
Theorem X15_generation_start_bracket :
  forall (qpm : Q) (steps_per_quarter : Z) (primer_total_time : Q)
         (total_length_steps : Z),
    0 < qpm -> (0 < steps_per_quarter)%Z -> 0 < primer_total_time ->
    (Qceiling (primer_total_time / (60 / qpm / inject_Z steps_per_quarter))
     < total_length_steps)%Z ->
    exists (p : PrimerWindow Q) (g : GenerationWindow Q),
      window qpm steps_per_quarter primer_total_time total_length_steps
      = inr (p, g)
      /\ primer_total_time - (1 # 100000) <= generation_start_time g
      /\ generation_start_time g
         < primer_total_time + seconds_per_step p - (1 # 100000).
Proof.
  intros qpm spq t total Hq Hs Ht Hlt.
  pose proof (step_duration_pos Hq Hs) as Hstep.
  exists (primer_locals qpm spq t),
         (generation_locals (primer_locals qpm spq t) total).
  split; [apply window_exact; assumption|].
  cbn.
  pose proof (ceiling_covers t Hstep) as Hcov.
  pose proof (ceiling_overshoot t Hstep) as Hover.
  assert (Htime : 0 < inject_Z (Qceiling (t / step_duration qpm spq))
                      * step_duration qpm spq) by lra.
  apply gt0_true in Htime. rewrite Htime.
  split; lra.
Qed.

Lemma X15_witness :
  exists (p : PrimerWindow Q) (g : GenerationWindow Q),
    window 120 4 (14 # 10) 32 = inr (p, g)
    /\ (14 # 10) - (1 # 100000) <= generation_start_time g
    /\ generation_start_time g < (14 # 10) + seconds_per_step p - (1 # 100000).
Proof.
  apply (@X15_generation_start_bracket 120 4 (14 # 10) 32).
  - reflexivity.
  - reflexivity.
  - reflexivity.
  - reflexivity.
Defined.

Lemma primer_window_at_nonzero (qpm : Q) (spq : Z) (t sps : Q) :
  seconds_per_step_of qpm spq = inr sps -> ~ sps == 0 ->
  primer_window qpm spq t = inr (primer_locals_at sps t).
Proof.
  intros Hsps Hnz. unfold primer_window. rewrite Hsps. cbn.
  unfold Exact.truediv. rewrite (Qeq_bool_nonzero Hnz). cbn.
  unfold primer_end_adjust_of, primer_locals_at. cbn.
  destruct (Exact.gt0 _); reflexivity.
Qed.

(** X16. The length check does not look at the tempo: under exact
    arithmetic a negative qpm with an empty primer passes it for every
    total_length_steps > 0, the step duration is negative, all of
    total_length_steps is to be generated, and the interval handed on
    is reversed (gen_end < gen_start). *)
Theorem X16_negative_tempo_passes_the_check :
  forall (qpm : Q) (steps_per_quarter : Z) (primer_total_time : Q)
         (total_length_steps : Z),
    qpm < 0 -> (0 < steps_per_quarter)%Z -> primer_total_time == 0 ->
    (0 < total_length_steps)%Z ->
    exists (p : PrimerWindow Q) (g : GenerationWindow Q),
      window qpm steps_per_quarter primer_total_time total_length_steps
      = inr (p, g)
      /\ seconds_per_step p < 0
      /\ primer_sequence_length_steps p = 0%Z
      /\ generation_length_steps g = total_length_steps
      /\ generation_end_time g < generation_start_time g.
Proof.
  intros qpm spq t total Hq Hs Ht Htotal.
  assert (Hstep : step_duration qpm spq < 0).
  { assert (Hpos : 0 < step_duration (- qpm) spq)
      by (apply step_duration_pos; [lra|exact Hs]).
    pose proof (inject_Z_pos Hs) as Hspq.
    assert (E : step_duration qpm spq == - step_duration (- qpm) spq)
      by (unfold step_duration; field; split; lra).
    rewrite E. lra. }
  assert (Hsps : seconds_per_step_of qpm spq = inr (step_duration qpm spq)).
  { unfold seconds_per_step_of, float_div_int. cbn. unfold Exact.truediv.
    rewrite Qeq_bool_nonzero by lra. cbn.
    rewrite (Qeq_bool_pos (inject_Z_pos Hs)). reflexivity. }
  assert (Hratio : t / step_duration qpm spq == inject_Z 0)
    by (rewrite Ht; field; lra).
  assert (Hceil : Qceiling (t / step_duration qpm spq) = 0%Z)
    by (rewrite (Qceiling_comp _ _ Hratio); apply Qceiling_Z).
  assert (Hgt : Exact.gt0 (inject_Z 0 * step_duration qpm spq) = false)
    by (apply gt0_false; change (inject_Z 0) with 0; lra).
  exists (primer_locals_at (step_duration qpm spq) t),
         (generation_locals (primer_locals_at (step_duration qpm spq) t) total).
  split.
  - unfold window.
    rewrite (@primer_window_at_nonzero qpm spq t _ Hsps) by lra. cbn [bind].
    rewrite generation_window_exact; [reflexivity|]. cbn. rewrite Hceil. exact Htotal.
  - cbn. rewrite Hceil, Hgt.
    split; [exact Hstep|]. split; [reflexivity|]. split; [lia|].
    assert (Hone : 1 <= inject_Z (total - 0))
      by (change 1 with (inject_Z 1); rewrite <- Zle_Qle; lia).
    assert (Hneg : inject_Z (total - 0) * step_duration qpm spq
                   <= 1 * step_duration qpm spq).
    { setoid_replace (inject_Z (total - 0) * step_duration qpm spq)
        with (- (inject_Z (total - 0) * - step_duration qpm spq)) by ring.
      setoid_replace (1 * step_duration qpm spq)
        with (- (1 * - step_duration qpm spq)) by ring.
      apply Qopp_le_compat. apply Qmult_le_compat_r; lra. }
    change (inject_Z 0) with 0. lra.
Qed.

Lemma X16_witness :
  exists (p : PrimerWindow Q) (g : GenerationWindow Q),
    window (-120 # 1) 4 0 16 = inr (p, g)
    /\ seconds_per_step p < 0
    /\ primer_sequence_length_steps p = 0%Z
    /\ generation_length_steps g = 16%Z
    /\ generation_end_time g < generation_start_time g.
Proof.
  apply (@X16_negative_tempo_passes_the_check (-120 # 1) 4 0 16).
  - reflexivity.
  - reflexivity.
  - reflexivity.
  - reflexivity.
Defined.


(** ** The run theorems on concrete collaborators *)

Lemma C8_witness :
  (exists generator primer_sequence primer_qpm p g options post,
      acquire Demo.world "basic_rnn.mag" Demo.generator_map "basic_rnn"
              (Some "Fur_Elisa_Beethoveen_Monophonic.mid"%string) []
      = (inr (generator, primer_sequence),
         [] ++ acquisition_events "basic_rnn.mag" "basic_rnn"
                 (Some "Fur_Elisa_Beethoveen_Monophonic.mid"%string))
      /\ resolve_qpm primer_sequence (Binary64.decimal 120 0) = inr primer_qpm
      /\ window primer_qpm (getattr_steps_per_quarter generator)
                (total_time primer_sequence) 32 = inr (p, g)
      /\ build_options (Binary64.decimal 9 1) 1 1 1 g = inr options
      /\ generate_method generator primer_sequence options = inr Demo.generated
      /\ snd (Demo.run 32 [])
         = [] ++ acquisition_events "basic_rnn.mag" "basic_rnn"
                   (Some "Fur_Elisa_Beethoveen_Monophonic.mid"%string)
              ++ window_lines Demo.world p g
              ++ [ev_generate primer_sequence options (inr Demo.generated)]
              ++ post
      /\ filter (is_generate (F:=Binary64.float)) post = []
      /\ (forall e s,
             In e post -> written_sequence e = Some s -> s = Demo.generated)
      /\ (exists path,
             In (ev_note_sequence_to_midi_file Demo.generated path) post)
      /\ In (ev_note_sequence_to_pretty_midi Demo.generated) post)
  /\ forall (W' : World (F:=Binary64.float) unit unit) (show_plot' : bool)
            (log'' : list (event (F:=Binary64.float)))
            (sequence' : NoteSequence),
       (forall name dir,
           download_bundle W' name dir = download_bundle Demo.world name dir) ->
       (forall path,
           read_bundle_file W' path = read_bundle_file Demo.world path) ->
       (forall path, midi_file_to_note_sequence W' path
                     = midi_file_to_note_sequence Demo.world path) ->
       generate W' "basic_rnn.mag" Demo.generator_map "basic_rnn"
                (Some "Fur_Elisa_Beethoveen_Monophonic.mid"%string)
                (Binary64.decimal 120 0) 32 (Binary64.decimal 9 1) 1 1 1
                show_plot' []
       = (inr sequence', log'') ->
       sequence' = Demo.generated.
Proof.
  apply (@C8_returns_generated_sequence _ _ unit unit Demo.world
           "basic_rnn.mag" Demo.generator_map "basic_rnn"
           (Some "Fur_Elisa_Beethoveen_Monophonic.mid"%string)
           (Binary64.decimal 120 0) 32 (Binary64.decimal 9 1) 1 1 1 true []).
  vm_compute. reflexivity.
Defined.

Lemma X1_witness :
  exists generator primer_sequence primer_qpm p g options name,
    acquire Ticking.world "basic_rnn.mag" Demo.generator_map "basic_rnn"
            (Some "Fur_Elisa_Beethoveen_Monophonic.mid"%string) []
    = (inr (generator, primer_sequence),
       [] ++ acquisition_events "basic_rnn.mag" "basic_rnn"
               (Some "Fur_Elisa_Beethoveen_Monophonic.mid"%string))
    /\ resolve_qpm primer_sequence (Binary64.decimal 120 0) = inr primer_qpm
    /\ window primer_qpm (getattr_steps_per_quarter generator)
              (total_time primer_sequence) 32 = inr (p, g)
    /\ build_options (Binary64.decimal 9 1) 1 1 1 g = inr options
    /\ generate_method generator primer_sequence options = inr Demo.generated
    /\ generator_name_of generator = inr name
    /\ let log2 :=
         [] ++ acquisition_events "basic_rnn.mag" "basic_rnn"
                 (Some "Fur_Elisa_Beethoveen_Monophonic.mid"%string)
            ++ window_lines Ticking.world p g
            ++ [ev_generate primer_sequence options (inr Demo.generated)] in
       let first_time := strftime Ticking.world "%Y-%m-%d_%H%M%S" log2 in
       let second_time :=
         strftime Ticking.world "%Y-%m-%d_%H%M%S"
                  (log2 ++ midi_events Ticking.world name "basic_rnn"
                                       Demo.generated first_time) in
       snd (Ticking.run 32 [])
       = log2 ++ persistence_events Ticking.world name "basic_rnn" true
                                    Demo.generated first_time second_time.
Proof.
  apply (X1_successful_run_trace Ticking.world "basic_rnn.mag"
           Demo.generator_map "basic_rnn"
           (Some "Fur_Elisa_Beethoveen_Monophonic.mid"%string)
           (Binary64.decimal 120 0) 32 (Binary64.decimal 9 1) 1 1 1 true []).
  vm_compute. reflexivity.
Defined.

(** In that run the MIDI file is named after the ninth call and the
    plot after the twelfth. *)
Example ticking_file_names :
  exists pre post,
    snd (Ticking.run 32 [])
    = pre ++ [ ev_note_sequence_to_midi_file Demo.generated
                 "output/melody_rnn_basic_rnn_9.mid" ]
          ++ post
    /\ In (ev_plotter_show "output/melody_rnn_basic_rnn_12.html") post.
Proof.
  vm_compute. eexists (_ :: _ :: _ :: _ :: _ :: _ :: _ :: _ :: _ :: _ :: []), _.
  split; [reflexivity|]. cbn. repeat first [left; reflexivity | right].
Qed.

Lemma X2_witness :
  generate Demo.world "basic_rnn.mag" Faults.generator_map "broken_rnn"
           (Some "Fur_Elisa_Beethoveen_Monophonic.mid"%string)
           (Binary64.decimal 120 0) 32 (Binary64.decimal 9 1) 1 1 1 true []
  = (inl (CollaboratorError "out of memory"),
     [] ++ acquisition_events "basic_rnn.mag" "broken_rnn"
             (Some "Fur_Elisa_Beethoveen_Monophonic.mid"%string)
        ++ window_lines Demo.world Faults.primer_window_32
                        Faults.generation_window_32
        ++ [ev_generate Demo.primer Faults.options_32
              (inl (CollaboratorError "out of memory"))]).
Proof.
  eapply (X2_generation_failure_stops_the_run Demo.world "basic_rnn.mag"
            Faults.generator_map "broken_rnn"
            (Some "Fur_Elisa_Beethoveen_Monophonic.mid"%string)
            (Binary64.decimal 120 0) 32 (Binary64.decimal 9 1) 1 1 1 true []
            (generator := Faults.broken_rnn) (primer_sequence := Demo.primer)
            (primer_qpm := Binary64.decimal 120 0)).
  - reflexivity.
  - reflexivity.
  - vm_compute. reflexivity.
  - reflexivity.
  - reflexivity.
Defined.

Lemma X3_witness :
  persist Faults.read_only_world Demo.melody_rnn "basic_rnn" true
          Demo.generated []
  = (inl (CollaboratorError "read-only file system"),
     [] ++ [ ev_strftime "%Y-%m-%d_%H%M%S";
             ev_note_sequence_to_midi_file Demo.generated
               (midi_path "melody_rnn" "basic_rnn"
                  (strftime Faults.read_only_world "%Y-%m-%d_%H%M%S" [])) ]).
Proof.
  apply (X3_midi_failure_skips_the_plot Faults.read_only_world Demo.melody_rnn
           "basic_rnn" true Demo.generated []).
  - reflexivity.
  - reflexivity.
Defined.

Lemma X5_witness :
  generator_name_of Faults.local_rnn = inl IndexError
  /\ generator_name_of Demo.melody_rnn = inr "melody_rnn"%string.
Proof.
  split.
  - apply (proj1 (X5_generator_name Faults.local_rnn)).
    vm_compute. reflexivity.
  - apply (proj2 (proj2 (X5_generator_name Demo.melody_rnn))
             "<class 'magenta"%string "models"%string "melody_rnn"%string).
    + reflexivity.
    + reflexivity.
    + reflexivity.
    + right.
      exists "melody_rnn_sequence_generator.MelodyRnnSequenceGenerator'>"%string.
      reflexivity.
Defined.

Lemma X6_witness :
  generate_from Demo.world Faults.local_rnn Demo.primer (Binary64.decimal 120 0)
                "local_rnn" 32 (Binary64.decimal 9 1) 1 1 1 true []
  = (inl IndexError,
     [] ++ window_lines Demo.world Faults.primer_window_32
                        Faults.generation_window_32
        ++ [ ev_generate Demo.primer Faults.options_32 (inr Demo.generated);
             ev_strftime "%Y-%m-%d_%H%M%S" ]).
Proof.
  apply (X6_short_class_name_loses_the_sequence Demo.world Faults.local_rnn
           Demo.primer (Binary64.decimal 120 0) "local_rnn" 32
           (Binary64.decimal 9 1) 1 1 1 true []).
  - vm_compute. reflexivity.
  - reflexivity.
  - vm_compute. reflexivity.
  - vm_compute. reflexivity.
Defined.

Lemma X7_witness :
  exists evs,
    snd (Demo.run 32 []) = [] ++ evs
    /\ (List.length (filter (is_generate (F:=Binary64.float)) evs) <= 1)%nat
    /\ forall e s,
         In e evs -> written_sequence e = Some s ->
         exists primer_sequence options,
           In (ev_generate primer_sequence options (inr s)) evs.
Proof.
  apply (X7_one_generation_and_only_its_answer_is_written Demo.world
           "basic_rnn.mag" Demo.generator_map "basic_rnn"
           (Some "Fur_Elisa_Beethoveen_Monophonic.mid"%string)
           (Binary64.decimal 120 0) 32 (Binary64.decimal 9 1) 1 1 1 true []
           (r := inr Demo.generated)).
  vm_compute. reflexivity.
Defined.

Lemma X8_witness :
  generate Demo.world "basic_rnn.mag" Demo.generator_map "polyphony_rnn" None
           (Binary64.decimal 120 0) 32 (Binary64.decimal 9 1) 1 1 1 true []
  = (inl (KeyError "polyphony_rnn"),
     [] ++ [ ev_download_bundle "basic_rnn.mag" "bundles";
             ev_read_bundle_file (os_path_join "bundles" "basic_rnn.mag");
             ev_get_generator_map ]).
Proof.
  apply (X8_unknown_generator_id Demo.world "basic_rnn.mag" Demo.generator_map
           "polyphony_rnn" None (Binary64.decimal 120 0) 32
           (Binary64.decimal 9 1) 1 1 1 true [] (bundle := tt)).
  - reflexivity.
  - reflexivity.
  - intros constructor Hin. cbn in Hin.
    repeat (destruct Hin as [Hin|Hin]; [discriminate Hin|]).
    exact Hin.
Defined.

Lemma X9_witness :
  Demo.no_primer = {| tempos := []; total_time := lit_0_0 |}
  /\ [ ev_download_bundle (F:=Binary64.float) "basic_rnn.mag" "bundles";
       ev_read_bundle_file (os_path_join "bundles" "basic_rnn.mag");
       ev_get_generator_map;
       ev_construct_generator "basic_rnn";
       ev_initialize ]
     = [] ++ [ ev_download_bundle "basic_rnn.mag" "bundles";
               ev_read_bundle_file (os_path_join "bundles" "basic_rnn.mag");
               ev_get_generator_map;
               ev_construct_generator "basic_rnn";
               ev_initialize ]
  /\ generate Demo.world "basic_rnn.mag" Demo.generator_map "basic_rnn" None
              (Binary64.decimal 120 0) 16 (Binary64.decimal 9 1) 1 1 1 false []
     = generate_from Demo.world Demo.melody_rnn Demo.no_primer
                     (Binary64.decimal 120 0) "basic_rnn" 16
                     (Binary64.decimal 9 1) 1 1 1 false
                     [ ev_download_bundle "basic_rnn.mag" "bundles";
                       ev_read_bundle_file
                         (os_path_join "bundles" "basic_rnn.mag");
                       ev_get_generator_map;
                       ev_construct_generator "basic_rnn";
                       ev_initialize ].
Proof.
  apply (X9_no_primer_filename Demo.world "basic_rnn.mag" Demo.generator_map
           "basic_rnn" (primer_filename := None) (Binary64.decimal 120 0) 16
           (Binary64.decimal 9 1) 1 1 1 false []
           (generator := Demo.melody_rnn) (primer_sequence := Demo.no_primer)).
  - left. reflexivity.
  - reflexivity.
Defined.

Lemma X10_witness :
  generate Demo.world "basic_rnn.mag" Demo.generator_map "basic_rnn"
           (Some "Fur_Elisa_Beethoveen_Monophonic.mid"%string)
           (Binary64.decimal 120 0) 32 (Binary64.decimal 9 1) 1 1 1 true []
  = generate Demo.world "basic_rnn.mag" Demo.generator_map "basic_rnn"
             (Some "Fur_Elisa_Beethoveen_Monophonic.mid"%string)
             (Binary64.decimal 90 0) 32 (Binary64.decimal 9 1) 1 1 1 true [].
Proof.
  eapply (X10_caller_qpm_ignored_with_one_tempo Demo.world "basic_rnn.mag"
            Demo.generator_map "basic_rnn"
            (Some "Fur_Elisa_Beethoveen_Monophonic.mid"%string)
            32 (Binary64.decimal 9 1) 1 1 1 true []
            (generator := Demo.melody_rnn) (primer_sequence := Demo.primer)).
  - reflexivity.
  - reflexivity.
Defined.

Lemma X11_witness :
  midi_file_to_note_sequence Demo.world
    "primers/Fur_Elisa_Beethoveen_Monophonic.mid" = inr Demo.primer
  /\ [ ev_download_bundle "basic_rnn.mag" "bundles";
       ev_read_bundle_file (os_path_join "bundles" "basic_rnn.mag");
       ev_get_generator_map;
       ev_construct_generator "basic_rnn";
       ev_initialize;
       ev_midi_file_to_note_sequence
         "primers/Fur_Elisa_Beethoveen_Monophonic.mid" ]
     = [] ++ [ ev_download_bundle "basic_rnn.mag" "bundles";
               ev_read_bundle_file (os_path_join "bundles" "basic_rnn.mag");
               ev_get_generator_map;
               ev_construct_generator "basic_rnn";
               ev_initialize;
               ev_midi_file_to_note_sequence (F:=Binary64.float)
                 "primers/Fur_Elisa_Beethoveen_Monophonic.mid" ].
Proof.
  apply (X11_primer_path Demo.world "basic_rnn.mag" Demo.generator_map
           "basic_rnn" (name := "Fur_Elisa_Beethoveen_Monophonic.mid") []
           (generator := Demo.melody_rnn) (primer_sequence := Demo.primer)).
  - discriminate.
  - reflexivity.
Defined.

Lemma X17_witness :
  generate Demo.world "basic_rnn.mag" Demo.generator_map "basic_rnn" None
           (S754_zero false) 32 (Binary64.decimal 9 1) 1 1 1 true []
  = (inl ZeroDivisionError,
     [] ++ acquisition_events "basic_rnn.mag" "basic_rnn" None).
Proof.
  eapply (X17_window_exception_stops_the_run Demo.world "basic_rnn.mag"
            Demo.generator_map "basic_rnn" None (S754_zero false) 32
            (Binary64.decimal 9 1) 1 1 1 true []
            (generator := Demo.melody_rnn) (primer_sequence := Demo.no_primer)
            (primer_qpm := S754_zero false)).
  - reflexivity.
  - reflexivity.
  - reflexivity.
Defined.

Lemma X18_witness :
  build_options (Binary64.decimal 9 1) 1 1 1 Faults.generation_window_32
  = inr Faults.options_32
  /\ generate Demo.world "basic_rnn.mag" Demo.generator_map "basic_rnn"
              (Some "Fur_Elisa_Beethoveen_Monophonic.mid"%string)
              (Binary64.decimal 120 0) 32 (Binary64.decimal 9 1)
              2147483648 1 1 true []
     = (inl ValueError,
        [] ++ acquisition_events "basic_rnn.mag" "basic_rnn"
                (Some "Fur_Elisa_Beethoveen_Monophonic.mid"%string)
           ++ window_lines Demo.world Faults.primer_window_32
                           Faults.generation_window_32).
Proof.
  split.
  - apply (proj1 (X18_integer_arguments_are_int32 Demo.world
                    (Binary64.decimal 9 1) 1 1 1 Faults.generation_window_32)).
    reflexivity.
  - eapply (proj2 (X18_integer_arguments_are_int32 Demo.world
                     (Binary64.decimal 9 1) 2147483648 1 1
                     Faults.generation_window_32)
              eq_refl).
    + reflexivity.
    + reflexivity.
    + vm_compute. reflexivity.
Defined.
